(** * altair.magics: the [%%vega] and [%%vegalite] cell magics

    A shallow embedding of [src/altair/magics.py] and the properties of
    its argument resolution, variable lookup, data normalisation and spec
    assembly.

    Python objects live in a store: dictionaries, lists and data frames
    are reached through references, so that [prepped['name'] = name] and
    [spec['data'].append(prepped)] update the object every alias sees.
    Exceptions are results; the collaborators the module imports (the
    JSON and YAML parsers, argparse, the data transformers, pandas, the
    renderer classes) are fields of a class, and the theorems hold for
    every instance. *)

From stdpp Require Import base option list gmap strings fin_maps.
From Stdlib Require Import String Ascii.

Local Open Scope string_scope.

(** ** Values and objects *)

Abbreviation loc := nat.

Inductive value :=
| VNone
| VBool (b : bool)
| VInt (n : Z)
| VStr (s : string)
| VRef (l : loc).

(** A [pandas.DataFrame]: its columns, by name. *)
Definition DataFrame : Type := list (string * list value).

Inductive obj :=
| ODict (d : gmap string value)
| OList (xs : list value)
| OFrame (f : DataFrame).

#[global] Instance value_eq_dec : EqDecision value.
Proof. solve_decision. Defined.

(** ** Exceptions

    A message is kept as the template and the argument of
    [template.format(arg)]. *)

Inductive pyarg :=
| AStr (s : string)
| AList (l : list string)
| AType (t : string).

Inductive message := Msg (template : string) (arg : pyarg).

Inductive exn :=
| AssertionError
| ValueError (m : message)
| NameError (m : message)
| TypeError (m : message)
| KeyError (key : string)
| AttributeError (m : message)
| ForeignError (cls : string) (m : string).

Inductive outcome (A : Type) :=
| Ok (a : A)
| Raised (e : exn).
Arguments Ok {A} a.
Arguments Raised {A} e.

#[global] Instance outcome_ret : MRet outcome := λ A a, Ok a.
#[global] Instance outcome_bind : MBind outcome := λ A B f m,
  match m with
  | Ok a => f a
  | Raised e => Raised e
  end.

(** ** The interpreter state: the object store and the warnings shown *)

Record world := World {
  objects : list obj;
  shown_warnings : list message
}.

Definition M (A : Type) : Type := world → world * outcome A.

#[global] Instance M_ret : MRet M := λ A a w, (w, Ok a).
#[global] Instance M_bind : MBind M := λ A B f m w,
  match m w with
  | (w', Ok a) => f a w'
  | (w', Raised e) => (w', Raised e)
  end.

Definition raise {A} (e : exn) : M A := λ w, (w, Raised e).

Definition lift {A} (r : outcome A) : M A := λ w, (w, r).

(** [try: body except ValueError: handler] *)
Definition try_except_ValueError {A} (body : M A) (handler : M A) : M A := λ w,
  match body w with
  | (w', Raised (ValueError _)) => handler w'
  | r => r
  end.

(** ** [str.split(sep)] for a one-character separator *)

Fixpoint split (sep : ascii) (s : string) : list string :=
  match s with
  | EmptyString => [EmptyString]
  | String c r =>
      if Ascii.eqb c sep then EmptyString :: split sep r
      else match split sep r with
           | p :: ps => String c p :: ps
           | [] => [String c EmptyString]
           end
  end.

(** The number of occurrences of a character: [s.count(c)]. *)
Fixpoint count (c : ascii) (s : string) : nat :=
  match s with
  | EmptyString => 0
  | String x r => (if Ascii.eqb x c then 1 else 0) + count c r
  end.

Definition colon : ascii := ":"%char.

(** ** [namevar], the token resolution local to [vega]

<<
    def namevar(s):
        s = s.split(':')
        if len(s) == 1:
            return s[0], s[0]
        elif len(s) == 2:
            return s[0], s[1]
        else:
            raise ValueError("invalid identifier: '{0}'".format(s))
>> *)
Definition namevar (s : string) : outcome (string * string) :=
  let s := split colon s in
  match s with
  | [s0] => Ok (s0, s0)
  | [s0; s1] => Ok (s0, s1)
  | _ => Raised (ValueError (Msg "invalid identifier: '{0}'" (AList s)))
  end.

(** ** Types of values, as [type(x)] and [isinstance] see them *)

Definition type_name (w : world) (v : value) : string :=
  match v with
  | VNone => "NoneType"
  | VBool _ => "bool"
  | VInt _ => "int"
  | VStr _ => "str"
  | VRef l =>
      match objects w !! l with
      | Some (ODict _) => "dict"
      | Some (OList _) => "list"
      | Some (OFrame _) => "DataFrame"
      | None => "object"
      end
  end.

Definition py_type (v : value) : M string := λ w, (w, Ok (type_name w v)).

Definition isinstance (v : value) (cls : string) : M bool := λ w,
  (w, Ok (bool_decide (type_name w v = cls))).

Definition is_none (v : value) : bool :=
  match v with VNone => true | _ => false end.

(** ** The module's global names

    What the [import] statements and the top-level definitions of
    [magics.py] bind, in source order. *)
Definition module_globals : list string :=
  [ "__all__"; "json"; "IPython"; "magic"; "magic_arguments"; "pd"; "six";
    "pipe"; "vegalite_v1"; "vegalite_v2"; "vega_v2"; "vega_v3";
    "RENDERERS"; "TRANSFORMERS"; "_prepare_data"; "_get_variable";
    "vega"; "vegalite" ].

(** Reading a global name that is not bound raises [NameError]. *)
Definition load_global (name : string) : M unit :=
  if bool_decide (name ∈ module_globals) then mret ()
  else raise (NameError (Msg "name '{0}' is not defined" (AStr name))).

(** ** The renderer and transformer tables *)

Inductive renderer :=
| vega_v2_Vega
| vega_v3_Vega
| vegalite_v1_VegaLite
| vegalite_v2_VegaLite.

Inductive registry :=
| vegalite_v1_data_transformers
| vegalite_v2_data_transformers.

Definition RENDERERS : gmap string (gmap string renderer) :=
  {[ "vega" := {[ "2" := vega_v2_Vega; "3" := vega_v3_Vega ]};
     "vega-lite" := {[ "1" := vegalite_v1_VegaLite; "2" := vegalite_v2_VegaLite ]} ]}.

Definition TRANSFORMERS : gmap string (gmap string registry) :=
  {[ "vega" := {[ "2" := vegalite_v1_data_transformers;
                  "3" := vegalite_v2_data_transformers ]};
     "vega-lite" := {[ "1" := vegalite_v1_data_transformers;
                       "2" := vegalite_v2_data_transformers ]} ]}.

(** [table[key]] on a dictionary constant. *)
Definition subscript {A} (table : gmap string A) (key : string) : M A :=
  match table !! key with
  | Some a => mret a
  | None => raise (KeyError key)
  end.

(** [assert cond] *)
Definition assert (cond : bool) : M unit :=
  if cond then mret () else raise AssertionError.

(** A renderer object: an instance of a renderer class, holding a spec. *)
Record display := Display {
  display_class : renderer;
  display_spec : value
}.

(** The namespace [magic_arguments.parse_argstring] returns; [data] is a
    list for [vega] ([nargs='*']) and optional for [vegalite]
    ([nargs='?']). *)
Record args (D : Type) := Args {
  data : D;
  version : string;
  yaml : bool
}.
Arguments Args {D} _ _ _.
Arguments data {D} _.
Arguments version {D} _.
Arguments yaml {D} _.

(** ** The collaborators

    The notebook runtime, argparse, the parsers, the transformer
    registries and pandas are not part of [magics.py]. *)
Class Notebook := {
  (** [IPython.get_ipython().user_ns] *)
  user_ns : gmap string value;
  (** [magic_arguments.parse_argstring(vega, line)] *)
  parse_argstring_vega : string → outcome (args (list string));
  (** [magic_arguments.parse_argstring(vegalite, line)] *)
  parse_argstring_vegalite : string → outcome (args (option string));
  (** [json.loads(cell)] *)
  json_loads : string → M value;
  (** [yaml.load(cell)] *)
  yaml_load : string → M value;
  (** [pipe(data, data_transformers.get())] *)
  pipe_get : value → registry → M value;
  (** [DataFrame.__setitem__], [DataFrame.__getitem__], [DataFrame.append] *)
  frame_setitem : DataFrame → string → value → outcome DataFrame;
  frame_getitem : DataFrame → string → outcome value;
  frame_append : DataFrame → value → outcome unit;
  (** [R(spec)] for a renderer class [R] of [RENDERERS]: the classes are
      imported, their constructor checks the spec and may raise. *)
  construct : renderer → value → M display
}.

(** ** Operations on the store *)

Definition alloc (o : obj) : M value := λ w,
  (World (objects w ++ [o]) (shown_warnings w), Ok (VRef (List.length (objects w)))).

Definition store (l : loc) (o : obj) (w : world) : world :=
  World (<[l := o]> (objects w)) (shown_warnings w).

(** [warnings.warn(m)], once the name [warnings] is resolved. *)
Definition warn (m : message) : M unit := λ w,
  (World (objects w) (shown_warnings w ++ [m]), Ok ()).

Definition no_item_assignment (w : world) (v : value) : exn :=
  TypeError (Msg "'{0}' object does not support item assignment" (AType (type_name w v))).

Definition not_subscriptable (w : world) (v : value) : exn :=
  TypeError (Msg "'{0}' object is not subscriptable" (AType (type_name w v))).

Definition no_append (w : world) (v : value) : exn :=
  AttributeError (Msg "'{0}' object has no attribute 'append'" (AType (type_name w v))).

Definition str_index_on_list : exn :=
  TypeError (Msg "list indices must be integers or slices, not {0}" (AType "str")).

Section Magics.
Context `{Notebook}.

(** [target[key] = v] for a string key. *)
Definition py_setitem (target : value) (key : string) (v : value) : M unit := λ w,
  match target with
  | VRef l =>
      match objects w !! l with
      | Some (ODict d) => (store l (ODict (<[key := v]> d)) w, Ok ())
      | Some (OList _) => (w, Raised str_index_on_list)
      | Some (OFrame f) =>
          match frame_setitem f key v with
          | Ok f' => (store l (OFrame f') w, Ok ())
          | Raised e => (w, Raised e)
          end
      | None => (w, Raised (no_item_assignment w target))
      end
  | _ => (w, Raised (no_item_assignment w target))
  end.

(** [target[key]] for a string key. *)
Definition py_getitem (target : value) (key : string) : M value := λ w,
  match target with
  | VRef l =>
      match objects w !! l with
      | Some (ODict d) =>
          match d !! key with
          | Some v => (w, Ok v)
          | None => (w, Raised (KeyError key))
          end
      | Some (OList _) => (w, Raised str_index_on_list)
      | Some (OFrame f) => (w, frame_getitem f key)
      | None => (w, Raised (not_subscriptable w target))
      end
  | VStr _ => (w, Raised (TypeError (Msg "string indices must be integers, not {0}" (AType "str"))))
  | _ => (w, Raised (not_subscriptable w target))
  end.

(** [target.append(v)] *)
Definition py_append (target : value) (v : value) : M unit := λ w,
  match target with
  | VRef l =>
      match objects w !! l with
      | Some (OList xs) => (store l (OList (xs ++ [v])) w, Ok ())
      | Some (OFrame f) => (w, frame_append f v)
      | _ => (w, Raised (no_append w target))
      end
  | _ => (w, Raised (no_append w target))
  end.

(** ** [_prepare_data]

<<
  def _prepare_data(data, data_transformers):
      if data is None or isinstance(data, dict):
          return data
      elif isinstance(data, pd.DataFrame):
          return pipe(data, data_transformers.get())
      elif isinstance(data, six.string_types):
          return {'url': data}
      else:
          warnings.warn("data of type {0} not recognized".format(type(data)))
          return data
>> *)
Definition _prepare_data (data : value) (data_transformers : registry) : M value :=
  is_dict ← isinstance data "dict";
  if is_none data || is_dict then
    mret data
  else
    is_frame ← isinstance data "DataFrame";
    if is_frame : bool then
      pipe_get data data_transformers
    else
      is_str ← isinstance data "str";
      if is_str : bool then
        alloc (ODict {[ "url" := data ]})
      else
        load_global "warnings" ;;
        ty ← py_type data;
        warn (Msg "data of type {0} not recognized" (AType ty)) ;;
        mret data.

(** ** [_get_variable]

<<
  def _get_variable(name):
      ip = IPython.get_ipython()
      if name not in ip.user_ns:
          raise NameError("argument '{0}' does not match the "
                          "name of any defined variable".format(name))
      return ip.user_ns[name]
>> *)
Definition _get_variable (name : string) : M value :=
  match user_ns !! name with
  | None =>
      raise (NameError (Msg "argument '{0}' does not match the name of any defined variable"
                            (AStr name)))
  | Some v => mret v
  end.

(** [for x in xs: body(x)] *)
Fixpoint for_each {A} (xs : list A) (body : A → M unit) : M unit :=
  match xs with
  | [] => mret ()
  | x :: xs' => body x ;; for_each xs' body
  end.

(** [list(map(f, xs))] for an [f] that may raise. *)
Fixpoint list_map {A B} (f : A → outcome B) (xs : list A) : outcome (list B) :=
  match xs with
  | [] => Ok []
  | x :: xs' => y ← f x; ys ← list_map f xs'; mret (y :: ys)
  end.

(** The parser the [--yaml] flag selects. *)
Definition load_spec (yaml : bool) (cell : string) : M value :=
  if yaml then yaml_load cell else json_loads cell.

(** ** [vega]

<<
  def vega(line, cell):
      args = magic_arguments.parse_argstring(vega, line)

      version = args.version
      assert version in RENDERERS['vega']
      Vega = RENDERERS['vega'][version]
      data_transformers = TRANSFORMERS['vega'][version]
      ...
      try:
          data = list(map(namevar, args.data))
      except ValueError:
          raise ValueError("Could not parse arguments: '{0}'".format(line))

      if args.yaml:
          import yaml
          spec = yaml.load(cell)
      else:
          spec = json.loads(cell)

      if data:
          spec['data'] = []
          for name, val in data:
              val = _get_variable(val)
              prepped = _prepare_data(val, data_transformers)
              prepped['name'] = name
              spec['data'].append(prepped)

      return Vega(spec)
>> *)
Definition vega_attach (spec : value) (data_transformers : registry)
    (binding : string * string) : M unit :=
  let '(name, val) := binding in
  val ← _get_variable val;
  prepped ← _prepare_data val data_transformers;
  py_setitem prepped "name" (VStr name) ;;
  target ← py_getitem spec "data";
  py_append target prepped.

Definition vega (line cell : string) : M display :=
  args ← lift (parse_argstring_vega line);
  let version := version args in
  renderers ← subscript RENDERERS "vega";
  assert (bool_decide (is_Some (renderers !! version))) ;;
  renderers ← subscript RENDERERS "vega";
  Vega ← subscript renderers version;
  transformers ← subscript TRANSFORMERS "vega";
  data_transformers ← subscript transformers version;
  data ← try_except_ValueError
            (lift (list_map namevar (data args)))
            (raise (ValueError (Msg "Could not parse arguments: '{0}'" (AStr line))));
  spec ← load_spec (yaml args) cell;
  (if bool_decide (data ≠ []) then
     empty ← alloc (OList []);
     py_setitem spec "data" empty ;;
     for_each data (vega_attach spec data_transformers)
   else mret ()) ;;
  construct Vega spec.

(** ** [vegalite]

<<
  def vegalite(line, cell):
      args = magic_arguments.parse_argstring(vegalite, line)
      version = args.version
      assert version in RENDERERS['vega-lite']
      VegaLite = RENDERERS['vega-lite'][version]
      data_transformers = TRANSFORMERS['vega-lite'][version]

      if args.yaml:
          import yaml
          spec = yaml.load(cell)
      else:
          spec = json.loads(cell)
      if args.data is not None:
          data = _get_variable(args.data)
          spec['data'] = _prepare_data(data, data_transformers)

      return VegaLite(spec)
>> *)
Definition vegalite (line cell : string) : M display :=
  args ← lift (parse_argstring_vegalite line);
  let version := version args in
  renderers ← subscript RENDERERS "vega-lite";
  assert (bool_decide (is_Some (renderers !! version))) ;;
  renderers ← subscript RENDERERS "vega-lite";
  VegaLite ← subscript renderers version;
  transformers ← subscript TRANSFORMERS "vega-lite";
  data_transformers ← subscript transformers version;
  spec ← load_spec (yaml args) cell;
  match data args with
  | Some name =>
      data ← _get_variable name;
      prepped ← _prepare_data data data_transformers;
      py_setitem spec "data" prepped
  | None => mret ()
  end ;;
  construct VegaLite spec.

End Magics.

(** ** Reading a spec back from the store *)

(** [target[key]] when [target] is a dictionary, without raising. *)
Definition field (w : world) (target : value) (key : string) : option value :=
  match target with
  | VRef l =>
      match objects w !! l with
      | Some (ODict d) => d !! key
      | _ => None
      end
  | _ => None
  end.

(** The elements of [target] when it is a list. *)
Definition items (w : world) (target : value) : option (list value) :=
  match target with
  | VRef l =>
      match objects w !! l with
      | Some (OList xs) => Some xs
      | _ => None
      end
  | _ => None
  end.

(** The store once [vega] has run [spec['data'] = []] on a spec held at
    [r] with entries [m]: the new list is the next free location. *)
Definition with_empty_data (r : loc) (m : gmap string value) (w : world) : world :=
  store r (ODict (<["data" := VRef (List.length (objects w))]> m))
        (World (objects w ++ [OList []]) (shown_warnings w)).

(** [RENDERERS[family][version]] and [TRANSFORMERS[family][version]],
    when both keys are present. *)
Definition renderer_for (family version : string) : option renderer :=
  table ← RENDERERS !! family; table !! version.

Definition transformers_for (family version : string) : option registry :=
  table ← TRANSFORMERS !! family; table !! version.

(** [version in RENDERERS[family]] *)
Definition supported (family version : string) : Prop :=
  is_Some (renderer_for family version).

(** [sep.join(pieces)] for a one-character separator. *)
Fixpoint join (sep : ascii) (pieces : list string) : string :=
  match pieces with
  | [] => EmptyString
  | [p] => p
  | p :: ps => p +:+ String sep (join sep ps)
  end.

(** The same notebook with other parsers behind [json.loads] and
    [yaml.load]. *)
Definition with_parsers (N : Notebook) (json yaml : string → M value) : Notebook :=
  {| user_ns := @user_ns N;
     parse_argstring_vega := @parse_argstring_vega N;
     parse_argstring_vegalite := @parse_argstring_vegalite N;
     json_loads := json;
     yaml_load := yaml;
     pipe_get := @pipe_get N;
     frame_setitem := @frame_setitem N;
     frame_getitem := @frame_getitem N;
     frame_append := @frame_append N;
     construct := @construct N |}.

(** ** A notebook to run the magics in

    The namespace binds a data frame, a dictionary, [None], a number and
    a string; the parsers know two cell texts; the transformer is
    [to_values], which builds [{'values': [...]}]. *)
Module Demo.

Definition frame0 : DataFrame := [("x", [VInt 1; VInt 2])].

Definition w0 : world :=
  World [OFrame frame0; ODict {[ "url" := VStr "cars.json" ]}] [].

(** The store the parser leaves for the cell [{"mark":"bar"}]. *)
Definition w1 : world :=
  World [OFrame frame0; ODict {[ "url" := VStr "cars.json" ]};
         ODict {[ "mark" := VStr "bar" ]}] [].

Definition ns : gmap string value :=
  {[ "myvar" := VRef 0; "d" := VRef 1; "nothing" := VNone;
     "n" := VInt 5; "u" := VStr "data.csv" ]}.

Definition words (line : string) : list string :=
  filter (λ t, t ≠ "") (split " "%char line).

Fixpoint options (ts : list string) (a : args (list string)) : args (list string) :=
  match ts with
  | [] => a
  | "-y" :: ts' | "--yaml" :: ts' => options ts' (Args (data a) (version a) true)
  | "-v" :: v :: ts' | "--version" :: v :: ts' => options ts' (Args (data a) v (yaml a))
  | t :: ts' => options ts' (Args (data a ++ [t])%list (version a) (yaml a))
  end.

Definition parse_vega (line : string) : outcome (args (list string)) :=
  Ok (options (words line) (Args [] "3" false)).

Definition parse_vegalite (line : string) : outcome (args (option string)) :=
  let a := options (words line) (Args [] "2" false) in
  match data a with
  | [] => Ok (Args None (version a) (yaml a))
  | [t] => Ok (Args (Some t) (version a) (yaml a))
  | _ => Raised (ForeignError "UsageError" "unrecognized arguments")
  end.

(** The cell text [{"mark":"bar"}]. *)
Definition quoted (s : string) : string :=
  String "034"%char s +:+ String "034"%char EmptyString.

Definition mark_bar : string :=
  "{" +:+ quoted "mark" +:+ ":" +:+ quoted "bar" +:+ "}".

Definition loads (cell : string) : M value :=
  if bool_decide (cell = mark_bar) then alloc (ODict {[ "mark" := VStr "bar" ]})
  else if bool_decide (cell = "[]") then alloc (OList [])
  else raise (ForeignError "JSONDecodeError" cell).

Definition to_values (d : value) (_ : registry) : M value := λ w,
  match d with
  | VRef l =>
      match objects w !! l with
      | Some (OFrame f) =>
          (rows ← alloc (OList []); alloc (ODict {[ "values" := rows ]})) w
      | _ => (w, Raised (ForeignError "TypeError" "expected a DataFrame"))
      end
  | _ => (w, Raised (ForeignError "TypeError" "expected a DataFrame"))
  end.

(** The renderer classes check the spec against their schema. Here a
    Vega spec is any dictionary, and a Vega-Lite spec is a dictionary
    with a [mark] and with a dictionary as its [data]. *)
Definition valid (R : renderer) (w : world) (spec : value) : bool :=
  match R with
  | vega_v2_Vega | vega_v3_Vega => bool_decide (type_name w spec = "dict")
  | vegalite_v1_VegaLite | vegalite_v2_VegaLite =>
      bool_decide (is_Some (field w spec "mark"))
      && match field w spec "data" with
         | Some d => bool_decide (type_name w d = "dict")
         | None => false
         end
  end.

Definition new (R : renderer) (spec : value) : M display := λ w,
  if valid R w spec then (w, Ok (Display R spec))
  else (w, Raised (ForeignError "ValidationError" "invalid spec")).

#[export] Instance notebook : Notebook := {|
  user_ns := ns;
  parse_argstring_vega := parse_vega;
  parse_argstring_vegalite := parse_vegalite;
  json_loads := loads;
  yaml_load := loads;
  pipe_get := to_values;
  frame_setitem := λ f k v, Ok ((k, [v]) :: f);
  frame_getitem := λ f k, Raised (KeyError k);
  frame_append := λ f v, Ok ();
  construct := new
|}.

End Demo.

(** * Properties *)

(** ** [split] and [count] *)

Lemma split_not_nil sep s : split sep s ≠ [].
Proof.
  destruct s as [|c r]; simpl; [done|].
  destruct (Ascii.eqb c sep); [done|].
  by destruct (split sep r).
Qed.

Lemma split_length sep s : List.length (split sep s) = S (count sep s).
Proof.
  induction s as [|c r IH]; simpl; [done|].
  destruct (Ascii.eqb c sep); simpl.
  - by rewrite IH.
  - destruct (split sep r) as [|p ps] eqn:E; simpl in *; [done|lia].
Qed.

Lemma split_no_sep sep s : count sep s = 0 → split sep s = [s].
Proof.
  induction s as [|c r IH]; simpl; [done|].
  destruct (Ascii.eqb c sep); simpl; [done|].
  intros Hc. by rewrite IH.
Qed.

Lemma split_app_sep sep a b :
  count sep a = 0 → split sep (a +:+ String sep b) = a :: split sep b.
Proof.
  induction a as [|c r IH]; simpl.
  - intros _. by rewrite Ascii.eqb_refl.
  - destruct (Ascii.eqb c sep); simpl; [done|].
    intros Hc. by rewrite IH.
Qed.

Lemma namevar_no_colon x : count colon x = 0 → namevar x = Ok (x, x).
Proof. intros Hx. unfold namevar. by rewrite split_no_sep. Qed.

Lemma namevar_one_colon a b :
  count colon a = 0 → count colon b = 0 →
  namevar (a +:+ ":" +:+ b) = Ok (a, b).
Proof.
  intros Ha Hb. unfold namevar.
  change (":" +:+ b) with (String colon b).
  by rewrite split_app_sep, split_no_sep.
Qed.

Lemma namevar_many_colons s :
  (2 ≤ count colon s)%nat →
  namevar s = Raised (ValueError (Msg "invalid identifier: '{0}'" (AList (split colon s)))).
Proof.
  intros Hs. unfold namevar.
  pose proof (split_length colon s) as Hl.
  destruct (split colon s) as [|s0 [|s1 [|s2 rest]]]; simpl in Hl; try lia.
  done.
Qed.

Lemma namevar_Ok_count s p : namevar s = Ok p → (count colon s ≤ 1)%nat.
Proof.
  unfold namevar. pose proof (split_length colon s) as Hl.
  destruct (split colon s) as [|s0 [|s1 [|s2 rest]]]; simpl in Hl; intros; simplify_eq; lia.
Qed.

Example namevar_plain : namevar "df" = Ok ("df", "df").
Proof. reflexivity. Qed.
Example namevar_slot : namevar "ds:myvar" = Ok ("ds", "myvar").
Proof. reflexivity. Qed.
Example namevar_two_colons :
  namevar "a:b:c" = Raised (ValueError (Msg "invalid identifier: '{0}'" (AList ["a"; "b"; "c"]))).
Proof. reflexivity. Qed.
Example namevar_empty_slot : namevar ":b" = Ok ("", "b").
Proof. reflexivity. Qed.

(** ** The version tables *)

Lemma RENDERERS_vega :
  RENDERERS !! "vega" = Some {[ "2" := vega_v2_Vega; "3" := vega_v3_Vega ]}.
Proof. reflexivity. Qed.

Lemma RENDERERS_vegalite :
  RENDERERS !! "vega-lite"
  = Some {[ "1" := vegalite_v1_VegaLite; "2" := vegalite_v2_VegaLite ]}.
Proof. reflexivity. Qed.

Lemma TRANSFORMERS_vega :
  TRANSFORMERS !! "vega"
  = Some {[ "2" := vegalite_v1_data_transformers; "3" := vegalite_v2_data_transformers ]}.
Proof. reflexivity. Qed.

Lemma TRANSFORMERS_vegalite :
  TRANSFORMERS !! "vega-lite"
  = Some {[ "1" := vegalite_v1_data_transformers; "2" := vegalite_v2_data_transformers ]}.
Proof. reflexivity. Qed.

Lemma renderer_for_vega v :
  renderer_for "vega" v = ({[ "2" := vega_v2_Vega; "3" := vega_v3_Vega ]} : gmap string renderer) !! v.
Proof. unfold renderer_for. by rewrite RENDERERS_vega. Qed.

Lemma renderer_for_vegalite v :
  renderer_for "vega-lite" v
  = ({[ "1" := vegalite_v1_VegaLite; "2" := vegalite_v2_VegaLite ]} : gmap string renderer) !! v.
Proof. unfold renderer_for. by rewrite RENDERERS_vegalite. Qed.

Lemma transformers_for_vega v :
  transformers_for "vega" v
  = ({[ "2" := vegalite_v1_data_transformers; "3" := vegalite_v2_data_transformers ]}
       : gmap string registry) !! v.
Proof. unfold transformers_for. by rewrite TRANSFORMERS_vega. Qed.

Lemma transformers_for_vegalite v :
  transformers_for "vega-lite" v
  = ({[ "1" := vegalite_v1_data_transformers; "2" := vegalite_v2_data_transformers ]}
       : gmap string registry) !! v.
Proof. unfold transformers_for. by rewrite TRANSFORMERS_vegalite. Qed.

Lemma supported_vega v : supported "vega" v ↔ v = "2" ∨ v = "3".
Proof.
  unfold supported. rewrite renderer_for_vega. split.
  - intros [r Hr].
    destruct (decide (v = "2")); [by left|].
    destruct (decide (v = "3")); [by right|].
    by rewrite lookup_insert_ne, lookup_singleton_ne in Hr.
  - intros [-> | ->]; by eexists.
Qed.

Lemma supported_vegalite v : supported "vega-lite" v ↔ v = "1" ∨ v = "2".
Proof.
  unfold supported. rewrite renderer_for_vegalite. split.
  - intros [r Hr].
    destruct (decide (v = "1")); [by left|].
    destruct (decide (v = "2")); [by right|].
    by rewrite lookup_insert_ne, lookup_singleton_ne in Hr.
  - intros [-> | ->]; by eexists.
Qed.

(** Every version with a renderer has a transformer registry: the two
    tables have the same keys. *)
Lemma supported_transformers family v :
  family = "vega" ∨ family = "vega-lite" →
  supported family v → is_Some (transformers_for family v).
Proof.
  intros [-> | ->] Hs.
  - apply supported_vega in Hs as [-> | ->]; by eexists.
  - apply supported_vegalite in Hs as [-> | ->]; by eexists.
Qed.

(** ** Running the monad *)

Lemma bind_run {A B} (m : M A) (k : A → M B) w :
  (m ≫= k) w
  = match m w with
    | (w', Ok a) => k a w'
    | (w', Raised e) => (w', Raised e)
    end.
Proof. reflexivity. Qed.

Lemma subscript_Some {A} (table : gmap string A) key a w :
  table !! key = Some a → subscript table key w = (w, Ok a).
Proof. intros Hk. unfold subscript. by rewrite Hk. Qed.

Lemma for_each_nil {A} (body : A → M unit) w : for_each [] body w = (w, Ok ()).
Proof. reflexivity. Qed.

Lemma for_each_cons {A} (x : A) xs (body : A → M unit) w :
  for_each (x :: xs) body w
  = match body x w with
    | (w', Ok _) => for_each xs body w'
    | (w', Raised e) => (w', Raised e)
    end.
Proof. reflexivity. Qed.

Lemma for_each_app {A} (xs ys : list A) (body : A → M unit) w :
  for_each (xs ++ ys)%list body w
  = match for_each xs body w with
    | (w', Ok _) => for_each ys body w'
    | (w', Raised e) => (w', Raised e)
    end.
Proof.
  revert w. induction xs as [|x xs IH]; intros w; [reflexivity|].
  simpl app. rewrite !for_each_cons.
  destruct (body x w) as [w' [[]|e]]; [apply IH | reflexivity].
Qed.

Lemma list_map_app {A B} (f : A → outcome B) xs ys bxs bys :
  list_map f xs = Ok bxs → list_map f ys = Ok bys →
  list_map f (xs ++ ys)%list = Ok (bxs ++ bys)%list.
Proof.
  revert bxs. induction xs as [|x xs IH]; intros bxs Hxs Hys.
  - simpl in Hxs. by simplify_eq.
  - simpl in *. destruct (f x) as [y|e]; [|discriminate].
    unfold mbind, outcome_bind in *.
    destruct (list_map f xs) as [bs|e] eqn:E; [|discriminate].
    unfold mret, outcome_ret in Hxs. simplify_eq.
    by rewrite (IH bs eq_refl Hys).
Qed.

Section Properties.
Context `{Notebook}.

(** What is left of [vega] once the arguments are parsed and the
    version is found in both tables. *)
Lemma vega_run line cell a w Vega dt :
  parse_argstring_vega line = Ok a →
  renderer_for "vega" (version a) = Some Vega →
  transformers_for "vega" (version a) = Some dt →
  vega line cell w =
    (data ← try_except_ValueError
              (lift (list_map namevar (data a)))
              (raise (ValueError (Msg "Could not parse arguments: '{0}'" (AStr line))));
     spec ← load_spec (yaml a) cell;
     (if bool_decide (data ≠ []) then
        empty ← alloc (OList []);
        py_setitem spec "data" empty ;;
        for_each data (vega_attach spec dt)
      else mret ()) ;;
     construct Vega spec) w.
Proof.
  intros Hp HR HT. unfold vega.
  rewrite renderer_for_vega in HR. rewrite transformers_for_vega in HT.
  rewrite bind_run. unfold lift at 1. rewrite Hp.
  rewrite bind_run, (subscript_Some _ _ _ _ RENDERERS_vega).
  rewrite bind_run, HR, bool_decide_true by eauto.
  change (assert true w) with (w, Ok ()). cbv beta iota.
  rewrite bind_run, (subscript_Some _ _ _ _ RENDERERS_vega).
  rewrite bind_run, (subscript_Some _ _ _ _ HR).
  rewrite bind_run, (subscript_Some _ _ _ _ TRANSFORMERS_vega).
  rewrite bind_run, (subscript_Some _ _ _ _ HT).
  reflexivity.
Qed.

Lemma vegalite_run line cell a w VegaLite dt :
  parse_argstring_vegalite line = Ok a →
  renderer_for "vega-lite" (version a) = Some VegaLite →
  transformers_for "vega-lite" (version a) = Some dt →
  vegalite line cell w =
    (spec ← load_spec (yaml a) cell;
     match data a with
     | Some name =>
         data ← _get_variable name;
         prepped ← _prepare_data data dt;
         py_setitem spec "data" prepped
     | None => mret ()
     end ;;
     construct VegaLite spec) w.
Proof.
  intros Hp HR HT. unfold vegalite.
  rewrite renderer_for_vegalite in HR. rewrite transformers_for_vegalite in HT.
  rewrite bind_run. unfold lift at 1. rewrite Hp.
  rewrite bind_run, (subscript_Some _ _ _ _ RENDERERS_vegalite).
  rewrite bind_run, HR, bool_decide_true by eauto.
  change (assert true w) with (w, Ok ()). cbv beta iota.
  rewrite bind_run, (subscript_Some _ _ _ _ RENDERERS_vegalite).
  rewrite bind_run, (subscript_Some _ _ _ _ HR).
  rewrite bind_run, (subscript_Some _ _ _ _ TRANSFORMERS_vegalite).
  rewrite bind_run, (subscript_Some _ _ _ _ HT).
  reflexivity.
Qed.

Lemma vega_unsupported line cell a w :
  parse_argstring_vega line = Ok a →
  ¬ supported "vega" (version a) →
  vega line cell w = (w, Raised AssertionError).
Proof.
  intros Hp HR. unfold supported in HR. rewrite renderer_for_vega in HR.
  unfold vega. rewrite bind_run. unfold lift at 1. rewrite Hp.
  rewrite bind_run, (subscript_Some _ _ _ _ RENDERERS_vega).
  by rewrite bind_run, bool_decide_false.
Qed.

Lemma vegalite_unsupported line cell a w :
  parse_argstring_vegalite line = Ok a →
  ¬ supported "vega-lite" (version a) →
  vegalite line cell w = (w, Raised AssertionError).
Proof.
  intros Hp HR. unfold supported in HR. rewrite renderer_for_vegalite in HR.
  unfold vegalite. rewrite bind_run. unfold lift at 1. rewrite Hp.
  rewrite bind_run, (subscript_Some _ _ _ _ RENDERERS_vegalite).
  by rewrite bind_run, bool_decide_false.
Qed.

Lemma supported_tables family v :
  family = "vega" ∨ family = "vega-lite" →
  supported family v →
  ∃ R dt, renderer_for family v = Some R ∧ transformers_for family v = Some dt.
Proof.
  intros Hf Hs. destruct (supported_transformers _ _ Hf Hs) as [dt Hdt].
  destruct Hs as [R HR]. eauto.
Qed.


(** *** Unsupported versions *)

(** C1. For [vega] and for [vegalite], when the requested version is
    not a key of the renderer table of the chart family, the invocation
    raises [AssertionError]. The store is the one the magic started
    with and the result mentions neither the cell text nor a parser,
    whatever the parsers do: the spec text is not parsed. *)
Theorem unsupported_version_rejected_before_parsing line cell w :
  (∀ a, parse_argstring_vega line = Ok a →
        ¬ supported "vega" (version a) →
        vega line cell w = (w, Raised AssertionError))
  ∧ (∀ a, parse_argstring_vegalite line = Ok a →
          ¬ supported "vega-lite" (version a) →
          vegalite line cell w = (w, Raised AssertionError)).
Proof.
  split; intros a Hp Hv.
  - by apply vega_unsupported with a.
  - by apply vegalite_unsupported with a.
Qed.

(** *** Variable lookup *)

(** C7. A name absent from the namespace raises [NameError] naming it;
    a name that is present yields its value whatever the value is:
    presence is the only check. *)
Theorem get_variable_checks_presence_only name w :
  (user_ns !! name = None →
     _get_variable name w
     = (w, Raised (NameError
                     (Msg "argument '{0}' does not match the name of any defined variable"
                          (AStr name)))))
  ∧ (∀ v, user_ns !! name = Some v → _get_variable name w = (w, Ok v)).
Proof.
  unfold _get_variable. split.
  - by intros ->.
  - by intros v ->.
Qed.

(** *** Data normalisation *)

Lemma prepare_data_None dt w : _prepare_data VNone dt w = (w, Ok VNone).
Proof. reflexivity. Qed.

Lemma prepare_data_dict data dt w :
  type_name w data = "dict" → _prepare_data data dt w = (w, Ok data).
Proof.
  intros Ht. unfold _prepare_data, isinstance.
  rewrite bind_run, Ht. simpl. by rewrite orb_true_r.
Qed.

Lemma prepare_data_frame data dt w :
  type_name w data = "DataFrame" → _prepare_data data dt w = pipe_get data dt w.
Proof.
  intros Ht. unfold _prepare_data, isinstance.
  rewrite bind_run, Ht. cbv beta iota.
  assert (is_none data = false) as -> by (by destruct data).
  rewrite bool_decide_false by done. cbn [orb].
  rewrite bind_run, Ht. cbv beta iota.
  by rewrite bool_decide_true.
Qed.

(** C9. A plain string is wrapped: the result is a dictionary whose
    only entry maps ["url"] to the string. The dictionary is new:
    the objects already in the store are as they were, and no warning
    is shown. *)
Theorem prepare_data_string_wrapped_as_url s dt w :
  ∃ w' entry,
    _prepare_data (VStr s) dt w = (w', Ok entry)
    ∧ (∀ key, field w' entry key = if decide (key = "url") then Some (VStr s) else None)
    ∧ (∀ l o, objects w !! l = Some o → objects w' !! l = Some o)
    ∧ shown_warnings w' = shown_warnings w.
Proof.
  exists (World (objects w ++ [ODict {[ "url" := VStr s ]}]) (shown_warnings w)),
         (VRef (List.length (objects w))).
  split; [reflexivity|]. split; [|split; [|reflexivity]].
  - intros key. unfold field. simpl objects.
    rewrite lookup_app_r, Nat.sub_diag by lia. simpl.
    destruct (decide (key = "url")) as [->|Hne].
    + apply lookup_singleton_eq.
    + by apply lookup_singleton_ne.
  - intros l o Hl. simpl. rewrite lookup_app_l; [done|].
    by eapply lookup_lt_Some.
Qed.

(** C2. For a value that is neither [None], a dictionary, a data
    frame nor a string, the fallback branch reads the global name
    [warnings], which the module never imports: [NameError] is raised,
    no warning is shown and the value is not returned. *)
Theorem prepare_data_other_type_raises_NameError data dt w :
  type_name w data ∉ ["NoneType"; "dict"; "DataFrame"; "str"] →
  _prepare_data data dt w
  = (w, Raised (NameError (Msg "name '{0}' is not defined" (AStr "warnings")))).
Proof.
  intros Ht. unfold _prepare_data, isinstance.
  assert (type_name w data ≠ "NoneType" ∧ type_name w data ≠ "dict"
          ∧ type_name w data ≠ "DataFrame" ∧ type_name w data ≠ "str")
    as (HN & Hd & Hf & Hs).
  { repeat split; intros E; apply Ht; rewrite E; set_solver. }
  rewrite bind_run. cbv beta iota.
  rewrite (bool_decide_false _ Hd).
  assert (is_none data = false) as -> by (by destruct data).
  simpl. rewrite bind_run. cbv beta iota.
  rewrite (bool_decide_false _ Hf). rewrite bind_run. cbv beta iota.
  rewrite (bool_decide_false _ Hs). reflexivity.
Qed.


(** *** Token resolution *)

(** C4. A token with at most one colon resolves to a pair: a token
    without a colon names both the slot and the variable, and
    [a:b] resolves to the slot [a] and the variable [b]. *)
Theorem namevar_at_most_one_colon :
  (∀ x, count colon x = 0 → namevar x = Ok (x, x))
  ∧ (∀ a b, count colon a = 0 → count colon b = 0 →
            namevar (a +:+ ":" +:+ b) = Ok (a, b))
  ∧ (∀ s, (count colon s ≤ 1)%nat → ∃ slot var, namevar s = Ok (slot, var)).
Proof.
  split; [exact namevar_no_colon|]. split; [exact namevar_one_colon|].
  intros s Hs. unfold namevar.
  pose proof (split_length colon s) as Hl.
  destruct (split colon s) as [|s0 [|s1 [|s2 rest]]]; simpl in Hl; try lia; eauto.
Qed.

Lemma namevar_raises_ValueError s e : namevar s = Raised e → ∃ m, e = ValueError m.
Proof.
  unfold namevar.
  destruct (split colon s) as [|s0 [|s1 [|s2 rest]]]; intros; simplify_eq; eauto.
Qed.

Lemma list_map_namevar_malformed tokens t :
  t ∈ tokens → (2 ≤ count colon t)%nat →
  ∃ m, list_map namevar tokens = Raised (ValueError m).
Proof.
  intros Hin Ht. induction tokens as [|x xs IH]; [by apply elem_of_nil in Hin|].
  simpl. destruct (namevar x) as [y|e] eqn:Hx.
  - apply elem_of_cons in Hin as [-> | Hin].
    + apply namevar_Ok_count in Hx. lia.
    + destruct (IH Hin) as [m Hm]. exists m.
      unfold mbind, outcome_bind. by rewrite Hm.
  - apply namevar_raises_ValueError in Hx as [m ->]. by exists m.
Qed.

(** C5. A token with two or more colons makes [namevar] raise
    [ValueError]; [vega] catches it and raises the [ValueError] that
    quotes the argument line, before the cell is parsed. *)
Theorem two_or_more_colons_is_a_value_error :
  (∀ s, (2 ≤ count colon s)%nat →
        namevar s
        = Raised (ValueError (Msg "invalid identifier: '{0}'" (AList (split colon s)))))
  ∧ (∀ line cell w a t,
       parse_argstring_vega line = Ok a →
       supported "vega" (version a) →
       t ∈ data a → (2 ≤ count colon t)%nat →
       vega line cell w
       = (w, Raised (ValueError (Msg "Could not parse arguments: '{0}'" (AStr line))))).
Proof.
  split; [exact namevar_many_colons|].
  intros line cell w a t Hp Hv Hin Ht.
  destruct (supported_tables "vega" _ (or_introl eq_refl) Hv) as (R & dt & HR & HT).
  rewrite (vega_run _ _ _ _ _ _ Hp HR HT).
  destruct (list_map_namevar_malformed _ _ Hin Ht) as [m Hm].
  rewrite bind_run. unfold try_except_ValueError, lift. by rewrite Hm.
Qed.

(** *** No dataset arguments *)

(** C8. With no dataset argument and a supported version, the spec the
    magic produces is the very value the parser returned, in the very
    store the parser left: no [data] key is added and no object is
    modified. That spec and that store are what the renderer class of
    the version is applied to, and the result of the invocation is the
    result of that call, an exception of the renderer included. *)
Theorem no_dataset_arguments_spec_unchanged line cell w w' spec :
  (∀ a, parse_argstring_vega line = Ok a →
        supported "vega" (version a) →
        data a = [] →
        load_spec (yaml a) cell w = (w', Ok spec) →
        ∃ Vega, renderer_for "vega" (version a) = Some Vega
                ∧ vega line cell w = construct Vega spec w')
  ∧ (∀ a, parse_argstring_vegalite line = Ok a →
          supported "vega-lite" (version a) →
          data a = None →
          load_spec (yaml a) cell w = (w', Ok spec) →
          ∃ VegaLite, renderer_for "vega-lite" (version a) = Some VegaLite
                      ∧ vegalite line cell w = construct VegaLite spec w').
Proof.
  split; intros a Hp Hv Hd Hl.
  - destruct (supported_tables "vega" _ (or_introl eq_refl) Hv) as (R & dt & HR & HT).
    exists R. split; [done|].
    rewrite (vega_run _ _ _ _ _ _ Hp HR HT), Hd.
    rewrite bind_run. unfold try_except_ValueError, lift. simpl list_map. cbv beta iota.
    rewrite bind_run, Hl. reflexivity.
  - destruct (supported_tables "vega-lite" _ (or_intror eq_refl) Hv) as (R & dt & HR & HT).
    exists R. split; [done|].
    rewrite (vegalite_run _ _ _ _ _ _ Hp HR HT), Hd.
    rewrite bind_run, Hl. reflexivity.
Qed.


(** *** The store after [spec['data'] = []] *)

Lemma objects_store_eq l o w :
  (l < List.length (objects w))%nat → objects (store l o w) !! l = Some o.
Proof. intros Hl. simpl. by apply list_lookup_insert_eq. Qed.

Lemma objects_store_ne l l' o w :
  l ≠ l' → objects (store l o w) !! l' = objects w !! l'.
Proof. intros Hl. simpl. by apply list_lookup_insert_ne. Qed.

Lemma vega_empty_data {B} r m w (k : M B) :
  objects w !! r = Some (ODict m) →
  (empty ← alloc (OList []); py_setitem (VRef r) "data" empty ;; k) w
  = k (with_empty_data r m w).
Proof.
  intros Hr. rewrite bind_run. unfold alloc. cbv beta iota.
  rewrite bind_run. unfold py_setitem. simpl objects.
  rewrite lookup_app_l by (by eapply lookup_lt_Some).
  by rewrite Hr.
Qed.

Lemma with_empty_data_spec r m w :
  objects w !! r = Some (ODict m) →
  objects (with_empty_data r m w) !! r
  = Some (ODict (<["data" := VRef (List.length (objects w))]> m)).
Proof.
  intros Hr. unfold with_empty_data. apply objects_store_eq. simpl.
  rewrite length_app. apply lookup_lt_Some in Hr. lia.
Qed.

Lemma with_empty_data_list r m w :
  objects w !! r = Some (ODict m) →
  objects (with_empty_data r m w) !! List.length (objects w) = Some (OList []).
Proof.
  intros Hr. unfold with_empty_data.
  rewrite objects_store_ne by (apply lookup_lt_Some in Hr; lia).
  simpl. by rewrite lookup_app_r, Nat.sub_diag.
Qed.

Lemma with_empty_data_other r m w l o :
  l ≠ r → objects w !! l = Some o → objects (with_empty_data r m w) !! l = Some o.
Proof.
  intros Hl Ho. unfold with_empty_data.
  rewrite objects_store_ne by done. simpl.
  by rewrite lookup_app_l by (by eapply lookup_lt_Some).
Qed.

(** [vega] up to the loop, for a spec that is a dictionary and at
    least one dataset token. *)
Lemma vega_run_loop line cell a w Vega dt bindings w1 r m :
  parse_argstring_vega line = Ok a →
  renderer_for "vega" (version a) = Some Vega →
  transformers_for "vega" (version a) = Some dt →
  list_map namevar (data a) = Ok bindings →
  bindings ≠ [] →
  load_spec (yaml a) cell w = (w1, Ok (VRef r)) →
  objects w1 !! r = Some (ODict m) →
  vega line cell w
  = (for_each bindings (vega_attach (VRef r) dt) ;; construct Vega (VRef r))
      (with_empty_data r m w1).
Proof.
  intros Hp HR HT Hb Hne Hl Hr.
  rewrite (vega_run _ _ _ _ _ _ Hp HR HT).
  rewrite bind_run. unfold try_except_ValueError, lift. rewrite Hb. cbv beta iota.
  rewrite bind_run, Hl. cbv beta iota.
  rewrite bool_decide_true by done.
  rewrite bind_run, (vega_empty_data _ _ _ _ Hr).
  reflexivity.
Qed.


(** *** Attaching the slot name *)

Lemma py_setitem_Ok_type target key v w w' :
  py_setitem target key v w = (w', Ok ()) →
  type_name w target = "dict" ∨ type_name w target = "DataFrame".
Proof.
  unfold py_setitem, type_name.
  destruct target as [| | | |l]; try (intros; simplify_eq; fail).
  destruct (objects w !! l) as [[d|xs|f]|]; intros; simplify_eq; eauto.
Qed.

Lemma py_setitem_dict l d key v w :
  objects w !! l = Some (ODict d) →
  py_setitem (VRef l) key v w = (store l (ODict (<[key := v]> d)) w, Ok ()).
Proof. intros Hl. unfold py_setitem. by rewrite Hl. Qed.

Lemma py_getitem_dict l d key v w :
  objects w !! l = Some (ODict d) → d !! key = Some v →
  py_getitem (VRef l) key w = (w, Ok v).
Proof. intros Hl Hk. unfold py_getitem. by rewrite Hl, Hk. Qed.

Lemma py_append_list l xs v w :
  objects w !! l = Some (OList xs) →
  py_append (VRef l) v w = (store l (OList (xs ++ [v])) w, Ok ()).
Proof. intros Hl. unfold py_append. by rewrite Hl. Qed.

(** C10. The slot name is written into the prepared value before it
    is appended, so only an object that takes item assignment (a
    dictionary, or a data frame through pandas) gets past the
    attachment. [None] is passed through by the normalisation; for a
    first dataset token whose variable holds [None] the invocation
    raises [TypeError] at [prepped['name'] = name], and the [data]
    list of the spec is still empty: no entry was appended. *)
Theorem None_dataset_fails_when_attaching_slot_name
    line cell w a slot var rest w1 r m :
  parse_argstring_vega line = Ok a →
  supported "vega" (version a) →
  list_map namevar (data a) = Ok ((slot, var) :: rest) →
  load_spec (yaml a) cell w = (w1, Ok (VRef r)) →
  objects w1 !! r = Some (ODict m) →
  user_ns !! var = Some VNone →
  let w2 := with_empty_data r m w1 in
  (∀ target key v u u', py_setitem target key v u = (u', Ok ()) →
      type_name u target = "dict" ∨ type_name u target = "DataFrame")
  ∧ (∀ dt, _prepare_data VNone dt w2 = (w2, Ok VNone))
  ∧ vega line cell w
    = (w2, Raised (TypeError (Msg "'{0}' object does not support item assignment"
                                  (AType "NoneType"))))
  ∧ ∃ target, field w2 (VRef r) "data" = Some target ∧ items w2 target = Some [].
Proof.
  intros Hp Hv Hb Hl Hr Hns w2.
  split; [exact py_setitem_Ok_type|]. split; [done|].
  destruct (supported_tables "vega" _ (or_introl eq_refl) Hv) as (R & dt & HR & HT).
  split.
  - rewrite (vega_run_loop _ _ _ _ _ _ _ _ _ _ Hp HR HT Hb ltac:(done) Hl Hr).
    fold w2. rewrite bind_run, for_each_cons.
    unfold vega_attach. rewrite bind_run.
    unfold _get_variable. rewrite Hns. reflexivity.
  - exists (VRef (List.length (objects w1))). unfold field, items, w2.
    rewrite (with_empty_data_spec _ _ _ Hr), (with_empty_data_list _ _ _ Hr).
    by rewrite lookup_insert_eq.
Qed.


(** *** One named dataset *)

(** C3. [vega] with the single token [ds:myvar], where [myvar] holds a
    data frame. The transformer is a collaborator: it is taken to
    return a dictionary and to leave the spec and its [data] list as
    they are. Then the loop completes, the [data] field of the
    produced spec is a list of exactly one entry, and the [name] field
    of that entry is ["ds"]; the invocation ends with the renderer
    class of the version applied to that spec. *)
Theorem single_slot_token_names_the_only_entry
    line cell w a dt w1 r m f fr w3 p pm :
  parse_argstring_vega line = Ok a →
  data a = ["ds:myvar"] →
  supported "vega" (version a) →
  transformers_for "vega" (version a) = Some dt →
  load_spec (yaml a) cell w = (w1, Ok (VRef r)) →
  objects w1 !! r = Some (ODict m) →
  user_ns !! "myvar" = Some (VRef f) →
  objects w1 !! f = Some (OFrame fr) →
  let w2 := with_empty_data r m w1 in
  let l := List.length (objects w1) in
  pipe_get (VRef f) dt w2 = (w3, Ok (VRef p)) →
  objects w3 !! p = Some (ODict pm) →
  objects w3 !! r = objects w2 !! r →
  objects w3 !! l = objects w2 !! l →
  ∃ w' Vega target entry,
    renderer_for "vega" (version a) = Some Vega
    ∧ vega line cell w = construct Vega (VRef r) w'
    ∧ field w' (VRef r) "data" = Some target
    ∧ items w' target = Some [entry]
    ∧ field w' entry "name" = Some (VStr "ds").
Proof.
  intros Hp Hd Hv HT Hl Hr Hns Hf w2 l Hpipe Hp3 Hr3 Hl3.
  destruct Hv as [R HR].
  assert (list_map namevar (data a) = Ok [("ds", "myvar")]) as Hb
    by (by rewrite Hd).
  assert (f ≠ r) as Hfr by (intros ->; by simplify_eq).
  assert (type_name w2 (VRef f) = "DataFrame") as Hty.
  { unfold type_name, w2. by rewrite (with_empty_data_other _ _ _ _ _ Hfr Hf). }
  assert (objects w3 !! l = Some (OList [])) as Hl3'.
  { rewrite Hl3. apply (with_empty_data_list _ _ _ Hr). }
  assert (objects w3 !! r = Some (ODict (<["data" := VRef l]> m))) as Hr3'.
  { rewrite Hr3. apply (with_empty_data_spec _ _ _ Hr). }
  assert (p ≠ l) as Hpl by (intros ->; by simplify_eq).
  assert (r ≠ l) as Hrl by (intros ->; by simplify_eq).
  pose proof (lookup_lt_Some _ _ _ Hp3) as Hplt.
  pose proof (lookup_lt_Some _ _ _ Hl3') as Hllt.
  set (w4 := store p (ODict (<["name" := VStr "ds"]> pm)) w3).
  assert (objects w4 !! p = Some (ODict (<["name" := VStr "ds"]> pm))) as Hp4
    by (by apply objects_store_eq).
  assert (objects w4 !! l = Some (OList [])) as Hl4
    by (unfold w4; by rewrite objects_store_ne).
  assert (∃ d, objects w4 !! r = Some (ODict d) ∧ d !! "data" = Some (VRef l))
    as (d & Hr4 & Hdata).
  { destruct (decide (p = r)) as [->|Hne].
    - eexists. split; [exact Hp4|]. simplify_eq.
      by rewrite lookup_insert_ne, lookup_insert_eq.
    - eexists. split.
      + unfold w4. rewrite objects_store_ne by done. exact Hr3'.
      + by rewrite lookup_insert_eq. }
  set (w5 := store l (OList ([] ++ [VRef p])) w4).
  exists w5, R, (VRef l), (VRef p). split; [done|]. split; [|split; [|split]].
  - rewrite (vega_run_loop _ _ _ _ _ _ _ _ _ _ Hp HR HT Hb ltac:(done) Hl Hr).
    fold w2. rewrite bind_run, for_each_cons.
    unfold vega_attach. rewrite bind_run.
    unfold _get_variable. rewrite Hns. cbv beta iota.
    change ((mret (VRef f) : M value) w2) with (w2, Ok (VRef f)). cbv beta iota.
    rewrite bind_run, (prepare_data_frame _ _ _ Hty), Hpipe. cbv beta iota.
    rewrite bind_run, (py_setitem_dict _ _ _ _ _ Hp3). fold w4. cbv beta iota.
    rewrite bind_run, (py_getitem_dict _ _ _ _ _ Hr4 Hdata). cbv beta iota.
    rewrite (py_append_list _ _ _ _ Hl4). fold w5.
    reflexivity.
  - unfold field, w5. rewrite objects_store_ne by done. by rewrite Hr4.
  - unfold items, w5. rewrite objects_store_eq; [done|].
    unfold w4. simpl. by rewrite length_insert.
  - unfold field, w5. rewrite objects_store_ne by done.
    by rewrite Hp4, lookup_insert_eq.
Qed.


(** *** Which variable a token names *)

(** C6, as the code has it. [vega] splits every token [slot:name] on
    the colon and looks up [name], the part after it, wherever the token
    stands among the dataset arguments: once the loop has attached the
    tokens before it, an absent [name] raises the [NameError] that
    names it, and a present one is what gets normalised and labelled
    [slot] before the loop goes on with the tokens after it. [vegalite]
    does not split: the variable it looks up is the whole token, colon
    included. *)
Theorem vega_splits_token_vegalite_does_not line cell w :
  (∀ a before slot name after bbefore bafter Vega dt w1 r m u,
     parse_argstring_vega line = Ok a →
     data a = (before ++ [slot +:+ ":" +:+ name] ++ after)%list →
     count colon slot = 0 → count colon name = 0 →
     list_map namevar before = Ok bbefore →
     list_map namevar after = Ok bafter →
     renderer_for "vega" (version a) = Some Vega →
     transformers_for "vega" (version a) = Some dt →
     load_spec (yaml a) cell w = (w1, Ok (VRef r)) →
     objects w1 !! r = Some (ODict m) →
     for_each bbefore (vega_attach (VRef r) dt) (with_empty_data r m w1) = (u, Ok ()) →
     vega line cell w
     = match user_ns !! name with
       | None =>
           (u,
            Raised (NameError
                      (Msg "argument '{0}' does not match the name of any defined variable"
                           (AStr name))))
       | Some v =>
           ((prepped ← _prepare_data v dt;
             py_setitem prepped "name" (VStr slot) ;;
             target ← py_getitem (VRef r) "data";
             py_append target prepped) ;;
            for_each bafter (vega_attach (VRef r) dt) ;;
            construct Vega (VRef r)) u
       end)
  ∧ (∀ a token VegaLite dt w1 spec,
       parse_argstring_vegalite line = Ok a →
       data a = Some token →
       renderer_for "vega-lite" (version a) = Some VegaLite →
       transformers_for "vega-lite" (version a) = Some dt →
       load_spec (yaml a) cell w = (w1, Ok spec) →
       vegalite line cell w
       = match user_ns !! token with
         | None =>
             (w1,
              Raised (NameError
                        (Msg "argument '{0}' does not match the name of any defined variable"
                             (AStr token))))
         | Some v =>
             ((prepped ← _prepare_data v dt; py_setitem spec "data" prepped) ;;
              construct VegaLite spec) w1
         end).
Proof.
  split.
  - intros a before slot name after bbefore bafter Vega dt w1 r m u
      Hp Hd Hs Hn Hbb Hba HR HT Hl Hr Hloop.
    assert (list_map namevar (data a) = Ok (bbefore ++ (slot, name) :: bafter)%list)
      as Hb.
    { rewrite Hd. apply list_map_app; [done|]. simpl.
      rewrite (namevar_one_colon _ _ Hs Hn).
      unfold mbind, outcome_bind. by rewrite Hba. }
    rewrite (vega_run_loop _ _ _ _ _ _ _ _ _ _ Hp HR HT Hb
               ltac:(by destruct bbefore) Hl Hr).
    rewrite bind_run, for_each_app, Hloop, for_each_cons.
    unfold vega_attach at 1.
    rewrite bind_run. unfold _get_variable.
    destruct (user_ns !! name) as [v|]; [|reflexivity].
    change ((mret v : M value) u) with (u, Ok v).
    cbv beta iota. rewrite ?bind_run.
    destruct (_prepare_data v dt u) as [u0 [prepped|e]]; [|reflexivity].
    rewrite ?bind_run.
    destruct (py_setitem prepped "name" (VStr slot) u0) as [u1 [[]|e]]; [|reflexivity].
    rewrite ?bind_run.
    destruct (py_getitem (VRef r) "data" u1) as [u2 [target|e]]; [|reflexivity].
    destruct (py_append target prepped u2) as [u3 [[]|e]]; [|reflexivity].
    by rewrite bind_run.
  - intros a token VegaLite dt w1 spec Hp Hd HR HT Hl.
    rewrite (vegalite_run _ _ _ _ _ _ Hp HR HT), Hd.
    rewrite bind_run, Hl. cbv beta iota.
    rewrite bind_run. rewrite (bind_run (_get_variable token)).
    unfold _get_variable.
    destruct (user_ns !! token) as [v|]; [|reflexivity].
    change ((mret v : M value) w1) with (w1, Ok v). cbv beta iota.
    rewrite ?bind_run.
    destruct (_prepare_data v dt w1) as [u [prepped|e]]; [|reflexivity].
    rewrite ?bind_run.
    destruct (py_setitem spec "data" prepped u) as [u1 [[]|e]]; reflexivity.
Qed.

End Properties.

(** * The properties at work in the demonstration notebook *)

Section DemoRuns.
Import Demo.

Lemma unsupported_version_witness :
  vega "-v 99" mark_bar w0 = (w0, Raised AssertionError)
  ∧ vegalite "-v 99" mark_bar w0 = (w0, Raised AssertionError).
Proof.
  destruct (unsupported_version_rejected_before_parsing "-v 99" mark_bar w0)
    as [Hvega Hvegalite].
  split.
  - apply (Hvega (Args [] "99" false)); [reflexivity|].
    intros [R HR]. vm_compute in HR. discriminate.
  - apply (Hvegalite (Args None "99" false)); [reflexivity|].
    intros [R HR]. vm_compute in HR. discriminate.
Defined.

Lemma get_variable_witness :
  _get_variable "df" w0
  = (w0, Raised (NameError
                   (Msg "argument '{0}' does not match the name of any defined variable"
                        (AStr "df"))))
  ∧ _get_variable "n" w0 = (w0, Ok (VInt 5)).
Proof.
  split.
  - apply (proj1 (get_variable_checks_presence_only "df" w0)). reflexivity.
  - apply (proj2 (get_variable_checks_presence_only "n" w0)). reflexivity.
Defined.

Lemma prepare_data_other_type_witness :
  _prepare_data (VInt 5) vegalite_v2_data_transformers w0
  = (w0, Raised (NameError (Msg "name '{0}' is not defined" (AStr "warnings")))).
Proof.
  apply prepare_data_other_type_raises_NameError.
  intros Hin. simpl in Hin.
  repeat (apply elem_of_cons in Hin as [Hin|Hin]; [discriminate|]).
  by apply elem_of_nil in Hin.
Defined.

Lemma namevar_witness :
  namevar "x" = Ok ("x", "x") ∧ namevar "a:b" = Ok ("a", "b").
Proof.
  destruct namevar_at_most_one_colon as (Hplain & Hslot & _).
  split.
  - apply Hplain. reflexivity.
  - apply (Hslot "a" "b"); reflexivity.
Defined.

Lemma malformed_token_witness :
  namevar "a:b:c"
  = Raised (ValueError (Msg "invalid identifier: '{0}'" (AList ["a"; "b"; "c"])))
  ∧ vega "a:b:c" mark_bar w0
    = (w0, Raised (ValueError (Msg "Could not parse arguments: '{0}'" (AStr "a:b:c")))).
Proof.
  destruct two_or_more_colons_is_a_value_error as [Hnamevar Hvega].
  split.
  - apply (Hnamevar "a:b:c"). simpl. lia.
  - apply (Hvega "a:b:c" mark_bar w0 (Args ["a:b:c"] "3" false) "a:b:c").
    + reflexivity.
    + by eexists.
    + apply list_elem_of_here.
    + simpl. lia.
Defined.

Lemma no_dataset_arguments_witness :
  (∃ Vega, vega "" mark_bar w0 = construct Vega (VRef 2) w1)
  ∧ (∃ VegaLite, vegalite "" mark_bar w0 = construct VegaLite (VRef 2) w1).
Proof.
  destruct (no_dataset_arguments_spec_unchanged "" mark_bar w0 w1 (VRef 2))
    as [Hvega Hvegalite].
  split.
  - destruct (Hvega (Args [] "3" false)) as (R & _ & HR);
      [reflexivity | by eexists | reflexivity | reflexivity |].
    by exists R.
  - destruct (Hvegalite (Args None "2" false)) as (R & _ & HR);
      [reflexivity | by eexists | reflexivity | reflexivity |].
    by exists R.
Defined.

Lemma None_dataset_witness :
  vega "nothing" mark_bar w0
  = (with_empty_data 2 {[ "mark" := VStr "bar" ]} w1,
     Raised (TypeError (Msg "'{0}' object does not support item assignment"
                            (AType "NoneType")))).
Proof.
  refine (proj1 (proj2 (proj2
    (None_dataset_fails_when_attaching_slot_name
       "nothing" mark_bar w0 (Args ["nothing"] "3" false) "nothing" "nothing" []
       w1 2 {[ "mark" := VStr "bar" ]} _ _ _ _ _ _))));
    [reflexivity | by eexists | reflexivity | reflexivity | reflexivity | reflexivity].
Defined.

Lemma single_slot_token_witness :
  ∃ w' Vega target entry,
    renderer_for "vega" "3" = Some Vega
    ∧ vega "ds:myvar" mark_bar w0 = construct Vega (VRef 2) w'
    ∧ field w' (VRef 2) "data" = Some target
    ∧ items w' target = Some [entry]
    ∧ field w' entry "name" = Some (VStr "ds").
Proof.
  eapply (single_slot_token_names_the_only_entry
            "ds:myvar" mark_bar w0 (Args ["ds:myvar"] "3" false)
            vegalite_v2_data_transformers w1 2 {[ "mark" := VStr "bar" ]}
            0 frame0 _ 5 {[ "values" := VRef 4 ]});
    [reflexivity | reflexivity | by eexists | reflexivity | reflexivity
    | reflexivity | reflexivity | reflexivity | reflexivity | reflexivity
    | reflexivity | reflexivity].
Defined.

Lemma token_lookup_witness :
  (∃ u, vega "a:u ds:nope b:d" mark_bar w0
        = (u,
           Raised (NameError
                     (Msg "argument '{0}' does not match the name of any defined variable"
                          (AStr "nope"))))
        ∧ ∃ entry, items u (VRef 3) = Some [entry]
                   ∧ field u entry "name" = Some (VStr "a"))
  ∧ vegalite "ds:myvar" mark_bar w0
    = (w1,
       Raised (NameError
                 (Msg "argument '{0}' does not match the name of any defined variable"
                      (AStr "ds:myvar")))).
Proof.
  destruct (vega_splits_token_vegalite_does_not "a:u ds:nope b:d" mark_bar w0)
    as [Hvega _].
  destruct (vega_splits_token_vegalite_does_not "ds:myvar" mark_bar w0)
    as [_ Hvegalite].
  split.
  - eexists. split.
    + apply (Hvega (Args ["a:u"; "ds:nope"; "b:d"] "3" false)
                   ["a:u"] "ds" "nope" ["b:d"] [("a", "u")] [("b", "d")]
                   vega_v3_Vega vegalite_v2_data_transformers
                   w1 2 {[ "mark" := VStr "bar" ]});
        reflexivity.
    + exists (VRef 4). split; reflexivity.
  - apply (Hvegalite (Args (Some "ds:myvar") "2" false) "ds:myvar"
                     vegalite_v2_VegaLite vegalite_v2_data_transformers w1 (VRef 2));
      reflexivity.
Defined.

(** C6, as stated, fails for [vegalite]: with [myvar] bound and the
    token [ds:myvar], the variable looked up is [ds:myvar], not the
    part after the colon, so the invocation raises [NameError] where
    the token [myvar] succeeds. *)
Lemma vegalite_looks_up_the_whole_token :
  user_ns !! "myvar" = Some (VRef 0)
  ∧ (vegalite "ds:myvar" mark_bar w0).2
    = Raised (NameError
                (Msg "argument '{0}' does not match the name of any defined variable"
                     (AStr "ds:myvar")))
  ∧ (vegalite "myvar" mark_bar w0).2
    = Ok (Display vegalite_v2_VegaLite (VRef 2)).
Proof. repeat split. Qed.

End DemoRuns.

(** * Further properties of the module *)

(** ** [split] and [join] *)

Lemma split_join sep s : join sep (split sep s) = s.
Proof.
  induction s as [|c r IH]; [done|]. simpl.
  destruct (Ascii.eqb c sep) eqn:E.
  - apply Ascii.eqb_eq in E as ->.
    pose proof (split_not_nil sep r) as Hne.
    destruct (split sep r) as [|p ps]; [done|]. simpl in *. by rewrite IH.
  - destruct (split sep r) as [|p [|q ps]]; simpl in *; by rewrite <- IH.
Qed.

Lemma split_pieces_no_sep sep s : Forall (λ p, count sep p = 0) (split sep s).
Proof.
  induction s as [|c r IH]; simpl; [by repeat constructor|].
  destruct (Ascii.eqb c sep) eqn:E.
  - by constructor.
  - destruct (split sep r) as [|p ps].
    { constructor; [simpl; by rewrite E | constructor]. }
    inversion IH; subst. constructor; [|done]. simpl. by rewrite E.
Qed.

(** X2. What a resolved token looks like: neither the slot nor the
    variable name contains a colon, and the token is the name alone
    (then the slot is the name) or [slot:name]. *)
Theorem namevar_Ok_inv s slot var :
  namevar s = Ok (slot, var) →
  count colon slot = 0 ∧ count colon var = 0
  ∧ ((s = slot ∧ var = slot) ∨ s = slot +:+ ":" +:+ var).
Proof.
  unfold namevar. intros Hs.
  pose proof (split_join colon s) as Hj.
  pose proof (split_pieces_no_sep colon s) as Hp.
  destruct (split colon s) as [|s0 [|s1 [|s2 rest]]]; simplify_eq.
  - inversion Hp; subst. simpl in *. eauto.
  - inversion Hp as [|? ? H0 Hp']; subst. inversion Hp'; subst. simpl in *. eauto.
Qed.

(** ** The version tables *)

(** X1. [RENDERERS] and [TRANSFORMERS] have the same keys: a chart
    family and version have a renderer exactly when they have a
    transformer registry, so the table lookups that follow the
    [assert] cannot raise [KeyError]. *)
Theorem tables_have_the_same_keys family v :
  is_Some (renderer_for family v) ↔ is_Some (transformers_for family v).
Proof.
  destruct (decide (family = "vega")) as [->|Hvega].
  { rewrite renderer_for_vega, transformers_for_vega.
    destruct (decide (v = "2")) as [->|?]; [by split; eexists|].
    destruct (decide (v = "3")) as [->|?]; [by split; eexists|].
    rewrite !lookup_insert_ne, !lookup_singleton_ne by done.
    split; by intros [? ?]. }
  destruct (decide (family = "vega-lite")) as [->|Hlite].
  { rewrite renderer_for_vegalite, transformers_for_vegalite.
    destruct (decide (v = "1")) as [->|?]; [by split; eexists|].
    destruct (decide (v = "2")) as [->|?]; [by split; eexists|].
    rewrite !lookup_insert_ne, !lookup_singleton_ne by done.
    split; by intros [? ?]. }
  unfold renderer_for, transformers_for, RENDERERS, TRANSFORMERS.
  rewrite !lookup_insert_ne, !lookup_singleton_ne by done.
  split; by intros [? ?].
Qed.

Section MoreProperties.
Context `{Notebook}.

(** ** Normalisation *)

(** X3. [None] and a dictionary are passed through as they are: the
    result is the argument itself (for a dictionary the same object,
    not a copy), and the store and the warnings are untouched. *)
Theorem prepare_data_passes_None_and_dict_through data dt w :
  data = VNone ∨ type_name w data = "dict" →
  _prepare_data data dt w = (w, Ok data).
Proof.
  intros [-> | Hd]; [reflexivity|]. by apply prepare_data_dict.
Qed.

(** ** Item assignment *)

Lemma py_setitem_not_assignable target key v w :
  type_name w target ∉ ["dict"; "DataFrame"] →
  ∃ m, py_setitem target key v w = (w, Raised (TypeError m)).
Proof.
  intros Ht. unfold py_setitem.
  destruct target as [| | | |l]; try (by eexists).
  unfold type_name in Ht.
  destruct (objects w !! l) as [[d|xs|f]|]; try (by eexists).
  - exfalso. apply Ht. set_solver.
  - exfalso. apply Ht. set_solver.
Qed.

(** ** What a successful invocation implies *)

Lemma list_map_namevar_Ok_counts tokens bindings :
  list_map namevar tokens = Ok bindings →
  Forall (λ t, (count colon t ≤ 1)%nat) tokens.
Proof.
  revert bindings. induction tokens as [|t ts IH]; intros bindings Hb; [constructor|].
  simpl in Hb. destruct (namevar t) as [y|e] eqn:Ht; [|discriminate].
  unfold mbind, outcome_bind in Hb.
  destruct (list_map namevar ts) as [ys|e] eqn:Hts; [|discriminate].
  constructor; [by eapply namevar_Ok_count | by eapply IH].
Qed.

Lemma for_each_attach_Ok_bound spec dt bindings w w' :
  for_each bindings (vega_attach spec dt) w = (w', Ok ()) →
  Forall (λ b : string * string, is_Some (user_ns !! b.2)) bindings.
Proof.
  revert w. induction bindings as [|[slot var] bs IH]; intros w Hrun; [constructor|].
  rewrite for_each_cons in Hrun.
  destruct (vega_attach spec dt (slot, var) w) as [u [[]|e]] eqn:Hstep; [|discriminate].
  constructor; [|by eapply IH].
  unfold vega_attach in Hstep. rewrite bind_run in Hstep.
  unfold _get_variable in Hstep. simpl.
  destruct (user_ns !! var); [by eexists | discriminate].
Qed.

(** X4. If [vega] returns, then the arguments parsed, the version is in
    the renderer table, every dataset token has at most one colon,
    every variable they name is bound in the namespace, and what is
    returned is what the renderer class of that table entry returned
    for the very value the parser produced (updated in place, never
    copied); without dataset tokens the renderer was called in the
    store the parser left. *)
Theorem vega_success_inv line cell w w' disp :
  vega line cell w = (w', Ok disp) →
  ∃ a bindings w1 Vega spec u,
    parse_argstring_vega line = Ok a
    ∧ renderer_for "vega" (version a) = Some Vega
    ∧ list_map namevar (data a) = Ok bindings
    ∧ Forall (λ t, (count colon t ≤ 1)%nat) (data a)
    ∧ Forall (λ b : string * string, is_Some (user_ns !! b.2)) bindings
    ∧ load_spec (yaml a) cell w = (w1, Ok spec)
    ∧ construct Vega spec u = (w', Ok disp)
    ∧ (data a = [] → u = w1).
Proof.
  intros Hrun.
  destruct (parse_argstring_vega line) as [a|e] eqn:Hp.
  2: { unfold vega in Hrun. rewrite bind_run in Hrun. unfold lift in Hrun.
       rewrite Hp in Hrun. discriminate. }
  destruct (decide (supported "vega" (version a))) as [Hv|Hv].
  2: { rewrite (vega_unsupported _ _ _ _ Hp Hv) in Hrun. discriminate. }
  destruct (supported_tables "vega" _ (or_introl eq_refl) Hv) as (R & dt & HR & HT).
  rewrite (vega_run _ _ _ _ _ _ Hp HR HT) in Hrun.
  rewrite bind_run in Hrun. unfold try_except_ValueError, lift in Hrun.
  destruct (list_map namevar (data a)) as [bindings|e] eqn:Hb.
  2: { destruct e; discriminate. }
  cbv beta iota in Hrun. rewrite bind_run in Hrun.
  destruct (load_spec (yaml a) cell w) as [w1 [spec|e]] eqn:Hl; [|discriminate].
  cbv beta iota in Hrun. rewrite bind_run in Hrun.
  exists a, bindings, w1, R, spec.
  assert (∃ u, Forall (λ b : string * string, is_Some (user_ns !! b.2)) bindings
               ∧ construct R spec u = (w', Ok disp)
               ∧ (bindings = [] → u = w1)) as (u & Hbound & Hcall & Hu).
  { case_bool_decide as Hne.
    - rewrite bind_run in Hrun. unfold alloc in Hrun. cbv beta iota in Hrun.
      rewrite bind_run in Hrun.
      destruct (py_setitem spec "data" _ _) as [u [[]|e]]; [|discriminate].
      destruct (for_each bindings (vega_attach spec dt) u) as [u' [[]|e]] eqn:Hloop;
        [|discriminate].
      exists u'. split; [by eapply for_each_attach_Ok_bound|]. by split.
    - subst bindings. exists w1. split; [constructor|]. by split. }
  exists u. repeat split; try done.
  - by eapply list_map_namevar_Ok_counts.
  - intros Hd. apply Hu. rewrite Hd in Hb. simpl in Hb. by simplify_eq.
Qed.

(** X5. If [vegalite] returns, then the arguments parsed, the version is
    in the renderer table, the dataset argument (if any) is bound in
    the namespace under its whole text, and what is returned is what
    the renderer class of that table entry returned for the value the
    parser produced; without a dataset argument the renderer was called
    in the store the parser left. *)
Theorem vegalite_success_inv line cell w w' disp :
  vegalite line cell w = (w', Ok disp) →
  ∃ a w1 VegaLite spec u,
    parse_argstring_vegalite line = Ok a
    ∧ renderer_for "vega-lite" (version a) = Some VegaLite
    ∧ (∀ name, data a = Some name → is_Some (user_ns !! name))
    ∧ load_spec (yaml a) cell w = (w1, Ok spec)
    ∧ construct VegaLite spec u = (w', Ok disp)
    ∧ (data a = None → u = w1).
Proof.
  intros Hrun.
  destruct (parse_argstring_vegalite line) as [a|e] eqn:Hp.
  2: { unfold vegalite in Hrun. rewrite bind_run in Hrun. unfold lift in Hrun.
       rewrite Hp in Hrun. discriminate. }
  destruct (decide (supported "vega-lite" (version a))) as [Hv|Hv].
  2: { rewrite (vegalite_unsupported _ _ _ _ Hp Hv) in Hrun. discriminate. }
  destruct (supported_tables "vega-lite" _ (or_intror eq_refl) Hv)
    as (R & dt & HR & HT).
  rewrite (vegalite_run _ _ _ _ _ _ Hp HR HT) in Hrun.
  rewrite bind_run in Hrun.
  destruct (load_spec (yaml a) cell w) as [w1 [spec|e]] eqn:Hl; [|discriminate].
  cbv beta iota in Hrun. rewrite bind_run in Hrun.
  exists a, w1, R, spec. destruct (data a) as [name|] eqn:Hd.
  - rewrite bind_run in Hrun. unfold _get_variable in Hrun.
    destruct (user_ns !! name) as [v|] eqn:Hns; [|discriminate].
    change ((mret v : M value) w1) with (w1, Ok v) in Hrun. cbv beta iota in Hrun.
    destruct ((_prepare_data v dt ≫= _) w1) as [u [[]|e]]; [|discriminate].
    exists u. repeat split; try done. intros ? [= <-]. by eexists.
  - exists w1. by repeat split.
Qed.

End MoreProperties.

Section Assembly.
Context `{Notebook}.

(** ** One turn of the loop of [vega] *)

Lemma length_objects_store l o w :
  List.length (objects (store l o w)) = List.length (objects w).
Proof. simpl. apply length_insert. Qed.

(** The loop body, for a variable whose normalised value is a
    dictionary at [p], in a store where the spec at [r] has its [data]
    list at [l]. *)
Lemma vega_attach_step r dt slot var v w u p pm d l xs :
  user_ns !! var = Some v →
  _prepare_data v dt w = (u, Ok (VRef p)) →
  objects u !! p = Some (ODict pm) →
  objects u !! r = Some (ODict d) →
  d !! "data" = Some (VRef l) →
  objects u !! l = Some (OList xs) →
  vega_attach (VRef r) dt (slot, var) w
  = (store l (OList (xs ++ [VRef p]))
       (store p (ODict (<["name" := VStr slot]> pm)) u), Ok ()).
Proof.
  intros Hns Hprep Hp Hr Hdata Hl.
  assert (p ≠ l) as Hpl by (intros ->; by simplify_eq).
  pose proof (lookup_lt_Some _ _ _ Hp) as Hplt.
  set (u1 := store p (ODict (<["name" := VStr slot]> pm)) u).
  assert (objects u1 !! l = Some (OList xs)) as Hl1
    by (unfold u1; by rewrite objects_store_ne).
  assert (∃ d', objects u1 !! r = Some (ODict d') ∧ d' !! "data" = Some (VRef l))
    as (d' & Hr1 & Hdata').
  { destruct (decide (p = r)) as [->|Hne].
    - eexists. split; [by apply objects_store_eq|]. simplify_eq.
      by rewrite lookup_insert_ne.
    - eexists. split; [|exact Hdata].
      unfold u1. by rewrite objects_store_ne. }
  unfold vega_attach. rewrite bind_run. unfold _get_variable. rewrite Hns.
  change ((mret v : M value) w) with (w, Ok v). cbv beta iota.
  rewrite bind_run, Hprep. cbv beta iota.
  rewrite bind_run, (py_setitem_dict _ _ _ _ _ Hp). fold u1. cbv beta iota.
  rewrite bind_run, (py_getitem_dict _ _ _ _ _ Hr1 Hdata'). cbv beta iota.
  by rewrite (py_append_list _ _ _ _ Hl1).
Qed.

(** ** Dictionaries from the namespace are named in place *)

(** X6. [vega] with one token whose variable holds a dictionary: the
    entry of the [data] list is the caller's own dictionary, not a
    copy, and the slot name has been written into it by the time the
    renderer class is applied to the spec. *)
Theorem vega_names_the_callers_dictionary
    line cell w a slot var w1 r m p pm :
  parse_argstring_vega line = Ok a →
  supported "vega" (version a) →
  list_map namevar (data a) = Ok [(slot, var)] →
  load_spec (yaml a) cell w = (w1, Ok (VRef r)) →
  objects w1 !! r = Some (ODict m) →
  user_ns !! var = Some (VRef p) →
  objects w1 !! p = Some (ODict pm) →
  p ≠ r →
  ∃ w' Vega target,
    renderer_for "vega" (version a) = Some Vega
    ∧ vega line cell w = construct Vega (VRef r) w'
    ∧ field w' (VRef r) "data" = Some target
    ∧ items w' target = Some [VRef p]
    ∧ objects w' !! p = Some (ODict (<["name" := VStr slot]> pm)).
Proof.
  intros Hp Hv Hb Hl Hr Hns Hpm Hpr.
  destruct (supported_tables "vega" _ (or_introl eq_refl) Hv) as (R & dt & HR & HT).
  set (w2 := with_empty_data r m w1). set (l := List.length (objects w1)).
  pose proof (with_empty_data_spec _ _ _ Hr) as Hr2.
  pose proof (with_empty_data_list _ _ _ Hr) as Hl2.
  pose proof (with_empty_data_other r m w1 p _ Hpr Hpm) as Hp2.
  fold w2 in Hr2, Hl2, Hp2. fold l in Hr2, Hl2.
  assert (_prepare_data (VRef p) dt w2 = (w2, Ok (VRef p))) as Hprep.
  { apply prepare_data_dict. unfold type_name. by rewrite Hp2. }
  assert (p ≠ l) as Hpl by (intros ->; by simplify_eq).
  assert (r ≠ l) as Hrl by (intros ->; by simplify_eq).
  pose proof (lookup_lt_Some _ _ _ Hp2) as Hplt.
  pose proof (lookup_lt_Some _ _ _ Hl2) as Hllt.
  eexists _, R, (VRef l). split; [done|]. split; [|split; [|split]].
  - rewrite (vega_run_loop _ _ _ _ _ _ _ _ _ _ Hp HR HT Hb ltac:(done) Hl Hr).
    fold w2. rewrite bind_run, for_each_cons.
    rewrite (vega_attach_step _ _ _ _ _ _ _ _ _ _ _ _ Hns Hprep Hp2 Hr2
               (lookup_insert_eq _ _ _) Hl2).
    reflexivity.
  - unfold field. rewrite !objects_store_ne by done. rewrite Hr2.
    apply lookup_insert_eq.
  - unfold items. rewrite objects_store_eq; [done|].
    by rewrite length_objects_store.
  - rewrite objects_store_ne by done. by apply objects_store_eq.
Qed.

(** X7. The same dictionary under two slots: both entries of the
    [data] list of the spec the renderer class is applied to are that
    one object, so both carry the name of the last slot. *)
Theorem vega_same_dictionary_twice_keeps_last_name
    line cell w a slot1 slot2 var w1 r m p pm :
  parse_argstring_vega line = Ok a →
  supported "vega" (version a) →
  list_map namevar (data a) = Ok [(slot1, var); (slot2, var)] →
  load_spec (yaml a) cell w = (w1, Ok (VRef r)) →
  objects w1 !! r = Some (ODict m) →
  user_ns !! var = Some (VRef p) →
  objects w1 !! p = Some (ODict pm) →
  p ≠ r →
  ∃ w' Vega target,
    renderer_for "vega" (version a) = Some Vega
    ∧ vega line cell w = construct Vega (VRef r) w'
    ∧ field w' (VRef r) "data" = Some target
    ∧ items w' target = Some [VRef p; VRef p]
    ∧ field w' (VRef p) "name" = Some (VStr slot2).
Proof.
  intros Hp Hv Hb Hl Hr Hns Hpm Hpr.
  destruct (supported_tables "vega" _ (or_introl eq_refl) Hv) as (R & dt & HR & HT).
  set (w2 := with_empty_data r m w1). set (l := List.length (objects w1)).
  pose proof (with_empty_data_spec _ _ _ Hr) as Hr2.
  pose proof (with_empty_data_list _ _ _ Hr) as Hl2.
  pose proof (with_empty_data_other r m w1 p _ Hpr Hpm) as Hp2.
  fold w2 in Hr2, Hl2, Hp2. fold l in Hr2, Hl2.
  assert (p ≠ l) as Hpl by (intros ->; by simplify_eq).
  assert (r ≠ l) as Hrl by (intros ->; by simplify_eq).
  pose proof (lookup_lt_Some _ _ _ Hp2) as Hplt.
  pose proof (lookup_lt_Some _ _ _ Hl2) as Hllt.
  assert (_prepare_data (VRef p) dt w2 = (w2, Ok (VRef p))) as Hprep.
  { apply prepare_data_dict. unfold type_name. by rewrite Hp2. }
  set (w3 := store l (OList ([] ++ [VRef p]))
               (store p (ODict (<["name" := VStr slot1]> pm)) w2)).
  assert (objects w3 !! p = Some (ODict (<["name" := VStr slot1]> pm))) as Hp3.
  { unfold w3. rewrite objects_store_ne by done. by apply objects_store_eq. }
  assert (objects w3 !! r = Some (ODict (<["data" := VRef l]> m))) as Hr3.
  { unfold w3. by rewrite !objects_store_ne. }
  assert (objects w3 !! l = Some (OList [VRef p])) as Hl3.
  { unfold w3. rewrite objects_store_eq; [done|]. by rewrite length_objects_store. }
  assert (_prepare_data (VRef p) dt w3 = (w3, Ok (VRef p))) as Hprep3.
  { apply prepare_data_dict. unfold type_name. by rewrite Hp3. }
  pose proof (lookup_lt_Some _ _ _ Hp3) as Hplt3.
  pose proof (lookup_lt_Some _ _ _ Hl3) as Hllt3.
  eexists _, R, (VRef l). split; [done|]. split; [|split; [|split]].
  - rewrite (vega_run_loop _ _ _ _ _ _ _ _ _ _ Hp HR HT Hb ltac:(done) Hl Hr).
    fold w2. rewrite bind_run, for_each_cons.
    rewrite (vega_attach_step _ _ _ _ _ _ _ _ _ _ _ _ Hns Hprep Hp2 Hr2
               (lookup_insert_eq _ _ _) Hl2).
    fold w3. rewrite for_each_cons.
    rewrite (vega_attach_step _ _ _ _ _ _ _ _ _ _ _ _ Hns Hprep3 Hp3 Hr3
               (lookup_insert_eq _ _ _) Hl3).
    reflexivity.
  - unfold field. rewrite !objects_store_ne by done. rewrite Hr3.
    apply lookup_insert_eq.
  - unfold items. rewrite objects_store_eq; [done|].
    by rewrite length_objects_store.
  - unfold field. rewrite objects_store_ne by done.
    rewrite objects_store_eq by done. apply lookup_insert_eq.
Qed.

(** X8. The loop is not undone when it fails: if the second token
    names a variable that is absent, [vega] raises the [NameError] for
    it, and the dictionary of the first token already carries its slot
    name. *)
Theorem vega_failure_keeps_earlier_names
    line cell w a slot var slot2 var2 rest w1 r m p pm :
  parse_argstring_vega line = Ok a →
  supported "vega" (version a) →
  list_map namevar (data a) = Ok ((slot, var) :: (slot2, var2) :: rest) →
  load_spec (yaml a) cell w = (w1, Ok (VRef r)) →
  objects w1 !! r = Some (ODict m) →
  user_ns !! var = Some (VRef p) →
  objects w1 !! p = Some (ODict pm) →
  p ≠ r →
  user_ns !! var2 = None →
  ∃ w',
    vega line cell w
    = (w', Raised (NameError
                     (Msg "argument '{0}' does not match the name of any defined variable"
                          (AStr var2))))
    ∧ objects w' !! p = Some (ODict (<["name" := VStr slot]> pm)).
Proof.
  intros Hp Hv Hb Hl Hr Hns Hpm Hpr Hns2.
  destruct (supported_tables "vega" _ (or_introl eq_refl) Hv) as (R & dt & HR & HT).
  set (w2 := with_empty_data r m w1). set (l := List.length (objects w1)).
  pose proof (with_empty_data_spec _ _ _ Hr) as Hr2.
  pose proof (with_empty_data_list _ _ _ Hr) as Hl2.
  pose proof (with_empty_data_other r m w1 p _ Hpr Hpm) as Hp2.
  fold w2 in Hr2, Hl2, Hp2. fold l in Hr2, Hl2.
  assert (p ≠ l) as Hpl by (intros ->; by simplify_eq).
  pose proof (lookup_lt_Some _ _ _ Hp2) as Hplt.
  assert (_prepare_data (VRef p) dt w2 = (w2, Ok (VRef p))) as Hprep.
  { apply prepare_data_dict. unfold type_name. by rewrite Hp2. }
  eexists. split.
  - rewrite (vega_run_loop _ _ _ _ _ _ _ _ _ _ Hp HR HT Hb ltac:(done) Hl Hr).
    fold w2. rewrite bind_run, for_each_cons.
    rewrite (vega_attach_step _ _ _ _ _ _ _ _ _ _ _ _ Hns Hprep Hp2 Hr2
               (lookup_insert_eq _ _ _) Hl2).
    rewrite for_each_cons. unfold vega_attach at 1. rewrite bind_run.
    unfold _get_variable. rewrite Hns2. reflexivity.
  - rewrite objects_store_ne by done. by apply objects_store_eq.
Qed.

End Assembly.

Section Datasets.
Context `{Notebook}.

(** ** Any number of URL datasets *)

(** The entry [vega] builds for a string variable: [name] and [url],
    nothing else. *)
Lemma url_entry_fields w entry slot s :
  (∃ p, entry = VRef p
        ∧ objects w !! p
          = Some (ODict (<["name" := VStr slot]> {[ "url" := VStr s ]}))) →
  ∀ key, field w entry key
         = if decide (key = "name") then Some (VStr slot)
           else if decide (key = "url") then Some (VStr s) else None.
Proof.
  intros (p & -> & Hp) key. unfold field. rewrite Hp.
  destruct (decide (key = "name")) as [->|Hn]; [apply lookup_insert_eq|].
  rewrite lookup_insert_ne by done.
  destruct (decide (key = "url")) as [->|Hu]; [apply lookup_singleton_eq|].
  by apply lookup_singleton_ne.
Qed.

Lemma for_each_url_datasets r dt d l bindings :
  d !! "data" = Some (VRef l) →
  ∀ w xs,
    objects w !! r = Some (ODict d) →
    objects w !! l = Some (OList xs) →
    Forall (λ b : string * string, ∃ s, user_ns !! b.2 = Some (VStr s)) bindings →
    ∃ w' entries,
      for_each bindings (vega_attach (VRef r) dt) w = (w', Ok ())
      ∧ objects w' !! r = Some (ODict d)
      ∧ objects w' !! l = Some (OList (xs ++ entries))
      ∧ Forall2 (λ entry (b : string * string),
                   ∃ p s, entry = VRef p ∧ user_ns !! b.2 = Some (VStr s)
                          ∧ objects w' !! p
                            = Some (ODict (<["name" := VStr b.1]> {[ "url" := VStr s ]})))
                entries bindings
      ∧ (∀ i o, i ≠ l → objects w !! i = Some o → objects w' !! i = Some o).
Proof.
  intros Hdata. induction bindings as [|[slot var] bs IH]; intros w xs Hr Hl Hall.
  { exists w, []. rewrite app_nil_r. by repeat split. }
  inversion Hall as [|? ? [s Hs] Hall']; subst. simpl in Hs.
  set (p := List.length (objects w)).
  set (u := World (objects w ++ [ODict {[ "url" := VStr s ]}]) (shown_warnings w)).
  assert (_prepare_data (VStr s) dt w = (u, Ok (VRef p))) as Hprep by reflexivity.
  pose proof (lookup_lt_Some _ _ _ Hr) as Hrlt.
  pose proof (lookup_lt_Some _ _ _ Hl) as Hllt.
  assert (r ≠ l) as Hrl by (intros ->; by simplify_eq).
  assert (objects u !! p = Some (ODict {[ "url" := VStr s ]})) as Hpu.
  { unfold u, p. simpl. by rewrite lookup_app_r, Nat.sub_diag. }
  assert (objects u !! r = Some (ODict d)) as Hru
    by (unfold u; simpl; by rewrite lookup_app_l).
  assert (objects u !! l = Some (OList xs)) as Hlu
    by (unfold u; simpl; by rewrite lookup_app_l).
  pose proof (vega_attach_step r dt slot var _ w u p _ d l xs Hs Hprep Hpu Hru Hdata Hlu)
    as Hstep.
  set (wn := store l (OList (xs ++ [VRef p]))
               (store p (ODict (<["name" := VStr slot]> {[ "url" := VStr s ]})) u))
    in Hstep.
  assert (List.length (objects u) = S p) as Hlen
    by (unfold u, p; simpl; rewrite length_app; simpl; lia).
  assert (objects wn !! r = Some (ODict d)) as Hrn.
  { unfold wn. rewrite !objects_store_ne by (unfold p; lia). exact Hru. }
  assert (objects wn !! l = Some (OList (xs ++ [VRef p]))) as Hln.
  { unfold wn. apply objects_store_eq. rewrite length_objects_store. lia. }
  assert (objects wn !! p
          = Some (ODict (<["name" := VStr slot]> {[ "url" := VStr s ]}))) as Hpn.
  { unfold wn. rewrite objects_store_ne by (unfold p; lia).
    apply objects_store_eq. lia. }
  destruct (IH wn (xs ++ [VRef p])%list Hrn Hln Hall')
    as (w' & entries & Hrun & Hr' & Hl' & Hentries & Hkeep).
  exists w', (VRef p :: entries). split; [|split; [|split; [|split]]].
  - by rewrite for_each_cons, Hstep.
  - done.
  - by rewrite Hl', <- app_assoc.
  - constructor; [|done]. exists p, s. repeat split; [done|].
    apply Hkeep; [unfold p; lia | done].
  - intros i o Hil Hi. apply Hkeep; [done|].
    pose proof (lookup_lt_Some _ _ _ Hi) as Hilt.
    unfold wn. rewrite !objects_store_ne by (unfold p; lia).
    unfold u. simpl. by rewrite lookup_app_l.
Qed.

(** X9. [vega] with any number of tokens whose variables all hold
    strings: the loop completes and the invocation ends with the
    renderer class applied to the spec. The [data] list of that spec
    has one entry per token, in the order of the tokens; the entry of a
    token holds exactly [name], its slot, and [url], its variable's
    string. Every other key of the spec is as the parser left it. *)
Theorem vega_url_datasets_in_token_order
    line cell w a bindings w1 r m :
  parse_argstring_vega line = Ok a →
  supported "vega" (version a) →
  list_map namevar (data a) = Ok bindings →
  bindings ≠ [] →
  load_spec (yaml a) cell w = (w1, Ok (VRef r)) →
  objects w1 !! r = Some (ODict m) →
  Forall (λ b : string * string, ∃ s, user_ns !! b.2 = Some (VStr s)) bindings →
  ∃ w' Vega target entries,
    renderer_for "vega" (version a) = Some Vega
    ∧ vega line cell w = construct Vega (VRef r) w'
    ∧ field w' (VRef r) "data" = Some target
    ∧ items w' target = Some entries
    ∧ Forall2 (λ entry (b : string * string),
                 ∀ key, field w' entry key
                        = if decide (key = "name") then Some (VStr b.1)
                          else if decide (key = "url") then user_ns !! b.2 else None)
              entries bindings
    ∧ (∀ key, key ≠ "data" → field w' (VRef r) key = m !! key).
Proof.
  intros Hp Hv Hb Hne Hl Hr Hall.
  destruct (supported_tables "vega" _ (or_introl eq_refl) Hv) as (R & dt & HR & HT).
  pose proof (with_empty_data_spec _ _ _ Hr) as Hr2.
  pose proof (with_empty_data_list _ _ _ Hr) as Hl2.
  destruct (for_each_url_datasets r dt _ _ bindings (lookup_insert_eq _ _ _)
              _ _ Hr2 Hl2 Hall)
    as (w' & entries & Hrun & Hr' & Hl' & Hentries & _).
  exists w', R, (VRef (List.length (objects w1))), entries.
  split; [done|]. split; [|split; [|split; [|split]]].
  - rewrite (vega_run_loop _ _ _ _ _ _ _ _ _ _ Hp HR HT Hb Hne Hl Hr).
    by rewrite bind_run, Hrun.
  - unfold field. rewrite Hr'. apply lookup_insert_eq.
  - unfold items. by rewrite Hl'.
  - eapply Forall2_impl; [exact Hentries|].
    intros entry [slot var] (p & s & -> & Hs & Hpo) key. cbn [fst snd] in *.
    rewrite Hs. apply url_entry_fields. eauto.
  - intros key Hkey. unfold field. rewrite Hr'. by apply lookup_insert_ne.
Qed.

End Datasets.

Section SingleDataset.
Context `{Notebook}.

(** ** [vegalite] with a dataset *)

Lemma vegalite_run_data line cell a w VegaLite dt name v w1 spec :
  parse_argstring_vegalite line = Ok a →
  renderer_for "vega-lite" (version a) = Some VegaLite →
  transformers_for "vega-lite" (version a) = Some dt →
  data a = Some name →
  load_spec (yaml a) cell w = (w1, Ok spec) →
  user_ns !! name = Some v →
  vegalite line cell w
  = ((prepped ← _prepare_data v dt; py_setitem spec "data" prepped) ;;
     construct VegaLite spec) w1.
Proof.
  intros Hp HR HT Hd Hl Hns.
  rewrite (vegalite_run _ _ _ _ _ _ Hp HR HT), Hd.
  rewrite bind_run, Hl. cbv beta iota.
  rewrite bind_run. rewrite (bind_run (_get_variable name)).
  unfold _get_variable. rewrite Hns.
  change ((mret v : M value) w1) with (w1, Ok v). cbv beta iota.
  by rewrite <- bind_run.
Qed.


(** ** Specs that are not mappings *)

(** X11. A spec that takes no item assignment (a JSON list, number or
    string) cannot receive datasets. [vega] raises [TypeError] at
    [spec['data'] = []], whatever the namespace holds: no variable has
    been looked up yet. [vegalite] raises it at the assignment, after the
    lookup and the normalisation. *)
Theorem dataset_on_a_spec_that_is_no_mapping line cell w :
  (∀ a bindings w1 spec,
     parse_argstring_vega line = Ok a →
     supported "vega" (version a) →
     list_map namevar (data a) = Ok bindings →
     bindings ≠ [] →
     load_spec (yaml a) cell w = (w1, Ok spec) →
     let w2 := World (objects w1 ++ [OList []]) (shown_warnings w1) in
     type_name w2 spec ∉ ["dict"; "DataFrame"] →
     ∃ m, vega line cell w = (w2, Raised (TypeError m)))
  ∧ (∀ a name v dt w1 spec u prepped,
       parse_argstring_vegalite line = Ok a →
       supported "vega-lite" (version a) →
       transformers_for "vega-lite" (version a) = Some dt →
       data a = Some name →
       load_spec (yaml a) cell w = (w1, Ok spec) →
       user_ns !! name = Some v →
       _prepare_data v dt w1 = (u, Ok prepped) →
       type_name u spec ∉ ["dict"; "DataFrame"] →
       ∃ m, vegalite line cell w = (u, Raised (TypeError m))).
Proof.
  split.
  - intros a bindings w1 spec Hp Hv Hb Hne Hl w2 Hty.
    destruct (supported_tables "vega" _ (or_introl eq_refl) Hv) as (R & dt & HR & HT).
    destruct (py_setitem_not_assignable spec "data"
                (VRef (List.length (objects w1))) w2 Hty) as [m Hm].
    exists m. rewrite (vega_run _ _ _ _ _ _ Hp HR HT).
    rewrite bind_run. unfold try_except_ValueError, lift. rewrite Hb. cbv beta iota.
    rewrite bind_run, Hl. cbv beta iota.
    rewrite bool_decide_true by done.
    rewrite bind_run, bind_run. unfold alloc. cbv beta iota.
    fold w2. by rewrite bind_run, Hm.
  - intros a name v dt w1 spec u prepped Hp [R HR] HT Hd Hl Hns Hprep Hty.
    destruct (py_setitem_not_assignable spec "data" prepped u Hty) as [m Hm].
    exists m. rewrite (vegalite_run_data _ _ _ _ _ _ _ _ _ _ Hp HR HT Hd Hl Hns).
    by rewrite bind_run, bind_run, Hprep, Hm.
Qed.

(** ** Parse errors *)

(** X12. An exception of the JSON or YAML parser reaches the caller as
    it is, in the store the parser left: nothing is looked up, nothing
    is attached. For [vega] the dataset tokens have been resolved by
    then. *)
Theorem parser_exception_propagates line cell w w1 e :
  (∀ a bindings,
     parse_argstring_vega line = Ok a →
     supported "vega" (version a) →
     list_map namevar (data a) = Ok bindings →
     load_spec (yaml a) cell w = (w1, Raised e) →
     vega line cell w = (w1, Raised e))
  ∧ (∀ a,
       parse_argstring_vegalite line = Ok a →
       supported "vega-lite" (version a) →
       load_spec (yaml a) cell w = (w1, Raised e) →
       vegalite line cell w = (w1, Raised e)).
Proof.
  split.
  - intros a bindings Hp Hv Hb Hl.
    destruct (supported_tables "vega" _ (or_introl eq_refl) Hv) as (R & dt & HR & HT).
    rewrite (vega_run _ _ _ _ _ _ Hp HR HT).
    rewrite bind_run. unfold try_except_ValueError, lift. rewrite Hb. cbv beta iota.
    by rewrite bind_run, Hl.
  - intros a Hp Hv Hl.
    destruct (supported_tables "vega-lite" _ (or_intror eq_refl) Hv)
      as (R & dt & HR & HT).
    rewrite (vegalite_run _ _ _ _ _ _ Hp HR HT).
    by rewrite bind_run, Hl.
Qed.

End SingleDataset.

(** ** The format flag *)

(** X13. The [--yaml] flag alone decides which parser reads the cell:
    without it the cell goes to the JSON parser, with it to the YAML
    parser. An exception of the selected parser is the result of the
    magic; a value it returns is the spec the renderer class is applied
    to (shown with no dataset argument, where the store is the one that
    parser left). The parser that is not selected plays no part in the
    result. *)
Theorem format_flag_selects_the_parser
    (N : Notebook) (j j' y y' : string → M value) line cell w :
  (∀ a, @parse_argstring_vega N line = Ok a →
        let selected := if yaml a then y else j in
        (@vega (with_parsers N j y) line cell w
         = if yaml a
           then @vega (with_parsers N j' y) line cell w
           else @vega (with_parsers N j y') line cell w)
        ∧ (∀ Vega bindings,
             renderer_for "vega" (version a) = Some Vega →
             list_map namevar (data a) = Ok bindings →
             match selected cell w with
             | (w1, Raised e) =>
                 @vega (with_parsers N j y) line cell w = (w1, Raised e)
             | (w1, Ok spec) =>
                 bindings = [] →
                 @vega (with_parsers N j y) line cell w = @construct N Vega spec w1
             end))
  ∧ (∀ a, @parse_argstring_vegalite N line = Ok a →
          let selected := if yaml a then y else j in
          (@vegalite (with_parsers N j y) line cell w
           = if yaml a
             then @vegalite (with_parsers N j' y) line cell w
             else @vegalite (with_parsers N j y') line cell w)
          ∧ (∀ VegaLite,
               renderer_for "vega-lite" (version a) = Some VegaLite →
               match selected cell w with
               | (w1, Raised e) =>
                   @vegalite (with_parsers N j y) line cell w = (w1, Raised e)
               | (w1, Ok spec) =>
                   data a = None →
                   @vegalite (with_parsers N j y) line cell w
                   = @construct N VegaLite spec w1
               end)).
Proof.
  split; intros a Hp selected; split.
  - destruct a as [d v flag]. unfold vega. rewrite !bind_run. unfold lift.
    change (@parse_argstring_vega (with_parsers N _ _) line)
      with (@parse_argstring_vega N line).
    rewrite Hp. by destruct flag.
  - intros R bindings HR Hb.
    destruct (supported_tables "vega" _ (or_introl eq_refl) (ex_intro _ R HR))
      as (R' & dt & HR' & HT).
    rewrite (@vega_run (with_parsers N j y) line cell a w R dt Hp HR HT).
    rewrite bind_run. unfold try_except_ValueError, lift. rewrite Hb. cbv beta iota.
    rewrite bind_run.
    subst selected. unfold load_spec.
    change (@yaml_load (with_parsers N j y)) with y.
    change (@json_loads (with_parsers N j y)) with j.
    destruct (yaml a).
    + destruct (y cell w) as [w1 [spec|e]]; [|reflexivity].
      intros ->. by rewrite bool_decide_false by (by intros []).
    + destruct (j cell w) as [w1 [spec|e]]; [|reflexivity].
      intros ->. by rewrite bool_decide_false by (by intros []).
  - destruct a as [d v flag]. unfold vegalite. rewrite !bind_run. unfold lift.
    change (@parse_argstring_vegalite (with_parsers N _ _) line)
      with (@parse_argstring_vegalite N line).
    rewrite Hp. by destruct flag.
  - intros R HR.
    destruct (supported_tables "vega-lite" _ (or_intror eq_refl) (ex_intro _ R HR))
      as (R' & dt & HR' & HT).
    rewrite (@vegalite_run (with_parsers N j y) line cell a w R dt Hp HR HT).
    rewrite bind_run.
    subst selected. unfold load_spec.
    change (@yaml_load (with_parsers N j y)) with y.
    change (@json_loads (with_parsers N j y)) with j.
    destruct (yaml a).
    + destruct (y cell w) as [w1 [spec|e]]; [|reflexivity]. by intros ->.
    + destruct (j cell w) as [w1 [spec|e]]; [|reflexivity]. by intros ->.
Qed.

(** * The further properties at work in the demonstration notebook *)

Section MoreDemoRuns.
Import Demo.

Lemma namevar_Ok_inv_witness :
  count colon "ds" = 0 ∧ count colon "myvar" = 0
  ∧ (("ds:myvar" = "ds" ∧ "myvar" = "ds") ∨ "ds:myvar" = "ds" +:+ ":" +:+ "myvar").
Proof. apply (namevar_Ok_inv "ds:myvar" "ds" "myvar"). reflexivity. Defined.

Lemma prepare_data_passes_through_witness :
  _prepare_data (VRef 1) vegalite_v2_data_transformers w0 = (w0, Ok (VRef 1)).
Proof.
  apply prepare_data_passes_None_and_dict_through. right. reflexivity.
Defined.

Lemma vega_success_inv_witness :
  ∃ a bindings w1 Vega spec u,
    parse_argstring_vega "ds:u" = Ok a
    ∧ renderer_for "vega" (version a) = Some Vega
    ∧ list_map namevar (data a) = Ok bindings
    ∧ Forall (λ t, (count colon t ≤ 1)%nat) (data a)
    ∧ Forall (λ b : string * string, is_Some (user_ns !! b.2)) bindings
    ∧ load_spec (yaml a) mark_bar w0 = (w1, Ok spec)
    ∧ construct Vega spec u
      = ((vega "ds:u" mark_bar w0).1, Ok (Display vega_v3_Vega (VRef 2)))
    ∧ (data a = [] → u = w1).
Proof.
  exact (vega_success_inv "ds:u" mark_bar w0 _ (Display vega_v3_Vega (VRef 2)) eq_refl).
Defined.

Lemma vegalite_success_inv_witness :
  ∃ a w1 VegaLite spec u,
    parse_argstring_vegalite "u" = Ok a
    ∧ renderer_for "vega-lite" (version a) = Some VegaLite
    ∧ (∀ name, data a = Some name → is_Some (user_ns !! name))
    ∧ load_spec (yaml a) mark_bar w0 = (w1, Ok spec)
    ∧ construct VegaLite spec u
      = ((vegalite "u" mark_bar w0).1, Ok (Display vegalite_v2_VegaLite (VRef 2)))
    ∧ (data a = None → u = w1).
Proof.
  exact (vegalite_success_inv "u" mark_bar w0 _
           (Display vegalite_v2_VegaLite (VRef 2)) eq_refl).
Defined.

Lemma vega_names_the_callers_dictionary_witness :
  ∃ w' Vega target,
    renderer_for "vega" "3" = Some Vega
    ∧ vega "ds:d" mark_bar w0 = construct Vega (VRef 2) w'
    ∧ field w' (VRef 2) "data" = Some target
    ∧ items w' target = Some [VRef 1]
    ∧ objects w' !! 1
      = Some (ODict (<["name" := VStr "ds"]> {[ "url" := VStr "cars.json" ]})).
Proof.
  apply (vega_names_the_callers_dictionary
           "ds:d" mark_bar w0 (Args ["ds:d"] "3" false) "ds" "d"
           w1 2 {[ "mark" := VStr "bar" ]} 1 {[ "url" := VStr "cars.json" ]});
    [reflexivity | by eexists | reflexivity | reflexivity | reflexivity
    | reflexivity | reflexivity | lia].
Defined.

Lemma vega_same_dictionary_twice_witness :
  ∃ w' Vega target,
    renderer_for "vega" "3" = Some Vega
    ∧ vega "a:d b:d" mark_bar w0 = construct Vega (VRef 2) w'
    ∧ field w' (VRef 2) "data" = Some target
    ∧ items w' target = Some [VRef 1; VRef 1]
    ∧ field w' (VRef 1) "name" = Some (VStr "b").
Proof.
  apply (vega_same_dictionary_twice_keeps_last_name
           "a:d b:d" mark_bar w0 (Args ["a:d"; "b:d"] "3" false) "a" "b" "d"
           w1 2 {[ "mark" := VStr "bar" ]} 1 {[ "url" := VStr "cars.json" ]});
    [reflexivity | by eexists | reflexivity | reflexivity | reflexivity
    | reflexivity | reflexivity | lia].
Defined.

Lemma vega_failure_keeps_earlier_names_witness :
  ∃ w',
    vega "a:d b:zz" mark_bar w0
    = (w', Raised (NameError
                     (Msg "argument '{0}' does not match the name of any defined variable"
                          (AStr "zz"))))
    ∧ objects w' !! 1
      = Some (ODict (<["name" := VStr "a"]> {[ "url" := VStr "cars.json" ]})).
Proof.
  apply (vega_failure_keeps_earlier_names
           "a:d b:zz" mark_bar w0 (Args ["a:d"; "b:zz"] "3" false) "a" "d" "b" "zz" []
           w1 2 {[ "mark" := VStr "bar" ]} 1 {[ "url" := VStr "cars.json" ]});
    [reflexivity | by eexists | reflexivity | reflexivity | reflexivity
    | reflexivity | reflexivity | lia | reflexivity].
Defined.

Lemma vega_url_datasets_witness :
  ∃ w' Vega target entries,
    renderer_for "vega" "3" = Some Vega
    ∧ vega "a:u b:u" mark_bar w0 = construct Vega (VRef 2) w'
    ∧ field w' (VRef 2) "data" = Some target
    ∧ items w' target = Some entries
    ∧ Forall2 (λ entry (b : string * string),
                 ∀ key, field w' entry key
                        = if decide (key = "name") then Some (VStr b.1)
                          else if decide (key = "url") then user_ns !! b.2 else None)
              entries [("a", "u"); ("b", "u")]
    ∧ (∀ key, key ≠ "data"
              → field w' (VRef 2) key
                = ({[ "mark" := VStr "bar" ]} : gmap string value) !! key).
Proof.
  apply (vega_url_datasets_in_token_order
           "a:u b:u" mark_bar w0 (Args ["a:u"; "b:u"] "3" false)
           [("a", "u"); ("b", "u")] w1 2 {[ "mark" := VStr "bar" ]});
    [reflexivity | by eexists | reflexivity | done | reflexivity | reflexivity |].
  repeat constructor; by exists "data.csv".
Defined.


Lemma dataset_on_a_list_spec_witness :
  (∃ m, vega "ds:zz" "[]" w0
        = (World [OFrame frame0; ODict {[ "url" := VStr "cars.json" ]};
                  OList []; OList []] [],
           Raised (TypeError m)))
  ∧ (∃ m, vegalite "nothing" "[]" w0
          = (World [OFrame frame0; ODict {[ "url" := VStr "cars.json" ]}; OList []] [],
             Raised (TypeError m))).
Proof.
  destruct (dataset_on_a_spec_that_is_no_mapping "ds:zz" "[]" w0) as [Hvega _].
  destruct (dataset_on_a_spec_that_is_no_mapping "nothing" "[]" w0) as [_ Hvegalite].
  split.
  - apply (Hvega (Args ["ds:zz"] "3" false) [("ds", "zz")]
                 (World [OFrame frame0; ODict {[ "url" := VStr "cars.json" ]}; OList []] [])
                 (VRef 2));
      [reflexivity | by eexists | reflexivity | done | reflexivity |].
    simpl. intros Hin.
    repeat (apply elem_of_cons in Hin as [Hin|Hin]; [discriminate|]).
    by apply elem_of_nil in Hin.
  - apply (Hvegalite (Args (Some "nothing") "2" false) "nothing" VNone
                     vegalite_v2_data_transformers
                     (World [OFrame frame0; ODict {[ "url" := VStr "cars.json" ]};
                             OList []] [])
                     (VRef 2) _ VNone);
      [reflexivity | by eexists | reflexivity | reflexivity | reflexivity
      | reflexivity | reflexivity |].
    simpl. intros Hin.
    repeat (apply elem_of_cons in Hin as [Hin|Hin]; [discriminate|]).
    by apply elem_of_nil in Hin.
Defined.

Lemma parser_exception_witness :
  vega "ds:zz" "oops" w0 = (w0, Raised (ForeignError "JSONDecodeError" "oops"))
  ∧ vegalite "zz" "oops" w0 = (w0, Raised (ForeignError "JSONDecodeError" "oops")).
Proof.
  split.
  - apply (proj1 (parser_exception_propagates "ds:zz" "oops" w0 w0 _)
             (Args ["ds:zz"] "3" false) [("ds", "zz")]);
      [reflexivity | by eexists | reflexivity | reflexivity].
  - apply (proj2 (parser_exception_propagates "zz" "oops" w0 w0 _)
             (Args (Some "zz") "2" false));
      [reflexivity | by eexists | reflexivity].
Defined.

Lemma format_flag_witness :
  (@vega (with_parsers notebook loads loads) "" mark_bar w0
   = @vega (with_parsers notebook loads (λ _, raise AssertionError)) "" mark_bar w0
   ∧ @vega (with_parsers notebook loads (λ _, raise AssertionError)) "" mark_bar w0
     = construct vega_v3_Vega (VRef 2) w1)
  ∧ (@vegalite (with_parsers notebook loads loads) "-y" mark_bar w0
     = @vegalite (with_parsers notebook (λ _, raise AssertionError) loads) "-y" mark_bar w0
     ∧ @vegalite (with_parsers notebook loads (λ _, raise AssertionError)) "-y zz"
         mark_bar w0
       = (w0, Raised AssertionError)).
Proof.
  split; split.
  - exact (proj1 (proj1 (format_flag_selects_the_parser
                           notebook loads loads loads (λ _, raise AssertionError)
                           "" mark_bar w0)
                    (Args [] "3" false) eq_refl)).
  - exact (proj2 (proj1 (format_flag_selects_the_parser
                           notebook loads loads (λ _, raise AssertionError) loads
                           "" mark_bar w0)
                    (Args [] "3" false) eq_refl)
             vega_v3_Vega [] eq_refl eq_refl eq_refl).
  - exact (proj1 (proj2 (format_flag_selects_the_parser
                           notebook loads (λ _, raise AssertionError) loads loads
                           "-y" mark_bar w0)
                    (Args None "2" true) eq_refl)).
  - exact (proj2 (proj2 (format_flag_selects_the_parser
                           notebook loads loads (λ _, raise AssertionError) loads
                           "-y zz" mark_bar w0)
                    (Args (Some "zz") "2" true) eq_refl)
             vegalite_v2_VegaLite eq_refl).
Defined.

End MoreDemoRuns.
